(** * PdfSearcher: a shallow embedding of [main2.py]

    The program walks a folder, searches the text of every PDF page for a
    case-insensitive regular expression, and then drives a small menu that
    opens matched files in Foxit Reader.

    The strings the program prints, compares and parses (paths, messages,
    the search term, the lines typed) are modelled as [string], i.e.
    sequences of 8-bit code points (the Latin-1 range of [str]); the text of
    a page, which comes out of the PDF, as the list of its code points, of
    any size; Python integers as [Z]; the [dict] of results as an
    association list in insertion order; [print], [input] and
    [subprocess.Popen] as events of an explicit trace; the libraries the
    program calls ([os], [pdfplumber], [subprocess], the compiler of [re]
    for patterns with special characters) as the fields of an environment
    record. *)

From Stdlib Require Import ZArith List String Ascii Bool Lia Sorted.
From Stdlib Require Import DecimalString DecimalPos.
Import ListNotations.

Local Open Scope string_scope.
Local Open Scope list_scope.
Local Open Scope Z_scope.

Set Implicit Arguments.

(** ** Strings *)

(** [str.lower] on the Latin-1 range: [A-Z] and the accented capitals
    U+00C0..U+00DE (the multiplication sign U+00D7 apart) move up by 32. *)
Definition lower_char (c : ascii) : ascii :=
  let n := N_of_ascii c in
  if (((65 <=? n) && (n <=? 90)) ||
      ((192 <=? n) && (n <=? 222) && negb (n =? 215)))%N
  then ascii_of_N (n + 32) else c.

Fixpoint lower (s : string) : string :=
  match s with
  | EmptyString => EmptyString
  | String c s' => String (lower_char c) (lower s')
  end.

(** [s.endswith(suffix)] *)
Fixpoint endswith (s suffix : string) : bool :=
  (s =? suffix)%string ||
  match s with
  | EmptyString => false
  | String _ s' => endswith s' suffix
  end.

(** [str(n)] for an integer. *)
Definition str_of_Z (n : Z) : string := NilZero.string_of_int (Z.to_int n).

(** [sep.join(l)] *)
Fixpoint join (sep : string) (l : list string) : string :=
  match l with
  | [] => ""
  | [x] => x
  | x :: l' => (x ++ sep ++ join sep l')%string
  end.

(** [repr] of a list of integers, as an f-string prints it: [[1, 3]]. *)
Definition repr_pages (l : list Z) : string :=
  ("[" ++ join ", " (map str_of_Z l) ++ "]")%string.

(** [len(l)] *)
Definition len {A} (l : list A) : Z := Z.of_nat (List.length l).

(** *** [int(s)] on a string

    Base 10, as [PyLong_FromUnicodeObject] reads it: surrounding white
    space is dropped, one sign is allowed, then decimal digits with single
    underscores between them.  [max_digits] is the interpreter's cap on the
    number of digits ([sys.get_int_max_str_digits()]; 0 means no cap). *)

(** The white space [int] drops around the number: tab, line feed, vertical
    tab, form feed, carriage return and space, and of the characters outside
    ASCII the next-line control U+0085 and the no-break space U+00A0.  The
    separators U+001C..U+001F are white space for [str.isspace] but not
    here: [int] raises [ValueError] on a string that holds one. *)
Definition int_space (c : ascii) : bool :=
  let n := N_of_ascii c in
  (((9 <=? n) && (n <=? 13)) || (n =? 32) || (n =? 133) || (n =? 160))%N.

Definition is_digit (c : ascii) : bool :=
  let n := N_of_ascii c in ((48 <=? n) && (n <=? 57))%N.

Definition digit_value (c : ascii) : Z := Z.of_N (N_of_ascii c) - 48.

Definition is_underscore (c : ascii) : bool := Ascii.eqb c "_".

Fixpoint lstrip (s : string) : string :=
  match s with
  | String c s' => if int_space c then lstrip s' else s
  | EmptyString => s
  end.

Fixpoint all_space (s : string) : bool :=
  match s with
  | EmptyString => true
  | String c s' => int_space c && all_space s'
  end.

(** Reads the run of digits and underscores at the head of [s].  [prev] says
    whether the previous character was an underscore (or the start, where an
    underscore is refused as well).  Returns the value, the number of digits
    and the rest of the string; [None] for an empty run or a misplaced
    underscore. *)
Fixpoint digit_run (s : string) (prev : bool) (acc : Z) (digits : nat)
  : option (Z * nat * string) :=
  match s with
  | String c s' =>
      if is_digit c then digit_run s' false (acc * 10 + digit_value c) (S digits)
      else if is_underscore c then
        if prev then None else digit_run s' true acc digits
      else if prev then None else Some (acc, digits, s)
  | EmptyString => if prev then None else Some (acc, digits, s)
  end.

Definition int_of_str (max_digits : nat) (s : string) : option Z :=
  let s1 := lstrip s in
  let '(sign, s2) :=
    match s1 with
    | String "+" r => (1, r)
    | String "-" r => (-1, r)
    | _ => (1, s1)
    end in
  match digit_run s2 true 0 0 with
  | None => None
  | Some (v, digits, rest) =>
      if negb (all_space rest) then None
      else if negb (Nat.eqb max_digits 0) && Nat.ltb max_digits digits then None
      else Some (sign * v)
  end.

(** ** The text of a page

    The text [pdfplumber] extracts is a [str] of arbitrary code points. *)
Definition ustr : Type := list N.

(** The code points of a Latin-1 string. *)
Definition codes (s : string) : ustr :=
  map N_of_ascii (list_ascii_of_string s).

(** ** Regular expressions *)

(** [re.IGNORECASE] *)
Definition IGNORECASE : Z := 2.

(** The code points beyond Latin-1 that [re.IGNORECASE] takes for a Latin-1
    letter, given in lower case: the dotted capital and the dotless small
    [i], the Kelvin sign, the long [s], the Greek mu for the micro sign, the
    Angstrom sign, the capital sharp [s] and the capital of U+00FF. *)
Definition far_spellings (n : N) : list N :=
  (if n =? 105 then [304; 305]
   else if n =? 107 then [8490]
   else if n =? 115 then [383]
   else if n =? 181 then [924; 956]
   else if n =? 223 then [7838]
   else if n =? 229 then [8491]
   else if n =? 255 then [376]
   else [])%N.

(** A character [c] of a pattern, taken literally under [re.IGNORECASE],
    matches the code point [x]: within Latin-1 they have the same lower
    case, beyond it [x] is one of the spellings above. *)
Definition lit_match (c : ascii) (x : N) : bool :=
  let n := N_of_ascii (lower_char c) in
  if (x <? 256)%N then (N_of_ascii (lower_char (ascii_of_N x)) =? n)%N
  else existsb (N.eqb x) (far_spellings n).

(** A compiled pattern, taken as its match relation: [p text i j] says that
    the pattern matches [text] from position [i] to position [j].  The whole
    text is in view, since what an anchor, a word boundary or a look-around
    accepts depends on the characters around the match. *)
Definition compiled : Type := ustr -> nat -> nat -> bool.

(** The characters of [pattern] are read, in any case, at the head of
    [text]. *)
Fixpoint spelt_at (pattern : string) (text : ustr) : bool :=
  match pattern, text with
  | EmptyString, _ => true
  | String c p, x :: t => lit_match c x && spelt_at p t
  | String _ _, [] => false
  end.

(** [re.search] on a compiled pattern: is there a start [i] and an end [j]
    in the text between which the pattern matches? *)
Definition search (p : compiled) (text : ustr) : bool :=
  existsb (fun i =>
             existsb (fun j => p text i j)
                     (seq i (S (List.length text) - i)))
          (seq 0 (S (List.length text))).

(** [text] has a part, from some position [i] to some position [j], that
    the compiled pattern matches. *)
Definition Contains (p : compiled) (text : ustr) : Prop :=
  exists i j,
    (i <= j <= List.length text)%nat /\ p text i j = true.


(** ** The environment of the program *)

(** A call that returns a value or raises an [Exception] with a message. *)
Inductive except (A : Type) : Type :=
| Ok (a : A)
| Raise (msg : string).
Arguments Ok {A} a.
Arguments Raise {A} msg.

(** A page of an open PDF: what [page.extract_text()] does on it.  The text
    may be absent ([None]) or empty for a page without a text layer. *)
Record Page : Type := mkPage { extract_text : except (option ustr) }.

(** The iteration [for ... in pdf.pages]: it ends, or it fails with an
    exception, or it yields a page and goes on. *)
Inductive PageIter : Type :=
| IterEnd
| IterRaise (msg : string)
| IterNext (page : Page) (rest : PageIter).

(** An open PDF: its pages, and the exception that closing it (leaving the
    [with] block) raises, if any. *)
Record Pdf : Type := mkPdf { pages : PageIter; close : option string }.

(** The calls the program makes to the outside, in order: [print(line)],
    [input(prompt)] and [subprocess.Popen(command)]. *)
Inductive event : Type :=
| Print (line : string)
| Input (prompt : string)
| Popen (command : list string).

Record Env : Type := mkEnv {
  abspath : string -> string;                   (* os.path.abspath *)
  isdir : string -> bool;                       (* os.path.isdir *)
  walk : string -> list (string * list string * list string);  (* os.walk *)
  path_join : string -> string -> string;       (* os.path.join *)
  relpath : string -> string -> string;         (* os.path.relpath *)
  basename : string -> string;                  (* os.path.basename *)
  dirname : string -> string;                   (* os.path.dirname *)
  path_exists : string -> bool;                 (* os.path.exists *)
  pdf_open : string -> except Pdf;              (* pdfplumber.open *)
  popen : list string -> option string;         (* subprocess.Popen: the
                                                   exception raised, if any *)
  sre_compile : string -> Z -> except compiled; (* the compiler of re, on
                                                   patterns with special
                                                   characters, with the
                                                   flags given *)
  int_max_str_digits : nat                      (* sys.get_int_max_str_digits *)
}.

(** [int(s)], caught as [ValueError] by the menu. *)
Definition py_int (E : Env) (s : string) : option Z :=
  int_of_str (int_max_str_digits E) s.

(** *** [re.search(pattern, text, flags)] *)

(** The characters the pattern parser gives a meaning to; every other
    character of a pattern stands for itself. *)
Definition special_chars : string := ".\[{()*+?^$|".

Fixpoint mem_char (c : ascii) (s : string) : bool :=
  match s with
  | EmptyString => false
  | String x s' => Ascii.eqb c x || mem_char c s'
  end.

Fixpoint is_plain (pattern : string) : bool :=
  match pattern with
  | EmptyString => true
  | String c p => negb (mem_char c special_chars) && is_plain p
  end.

(** The compiled form of a pattern without special characters, under
    [re.IGNORECASE]: it matches from [i] to [j] when its characters are
    read, in any case, from [i] on, and [j] is where they end. *)
Definition literal (pattern : string) : compiled :=
  fun text i j =>
    (j =? i + String.length pattern)%nat && spelt_at pattern (skipn i text).

Definition re_compile (E : Env) (pattern : string) (flags : Z)
  : except compiled :=
  if is_plain pattern && (flags =? IGNORECASE) then Ok (literal pattern)
  else sre_compile E pattern flags.

(** The truth value of the match object, or the [re.error] raised. *)
Definition re_search (E : Env) (pattern : string) (text : ustr) (flags : Z)
  : except bool :=
  match re_compile E pattern flags with
  | Ok p => Ok (search p text)
  | Raise e => Raise e
  end.

(** ** [search_pdf] *)

(** The body of the inner [try]: [text = page.extract_text()] and the test
    [text and re.search(search_term, text, re.IGNORECASE)]. *)
Definition page_matches (E : Env) (search_term : string) (page : Page)
  : except bool :=
  match extract_text page with
  | Raise e => Raise e
  | Ok None => Ok false
  | Ok (Some text) =>
      match text with
      | [] => Ok false
      | _ :: _ => re_search E search_term text IGNORECASE
      end
  end.

Definition page_error_line (pdf_path : string) (i : Z) (e : string) : string :=
  ("Error processing page " ++ str_of_Z (i + 1) ++ " in " ++ pdf_path
     ++ ": " ++ e)%string.

Definition read_error_line (pdf_path e : string) : string :=
  ("Error reading " ++ pdf_path ++ ": " ++ e)%string.

(** The loop [for i, page in enumerate(pdf.pages)], started at index [i]
    with the list [matches] built so far.  Returns the lines printed, the
    list [matches] as the loop leaves it, and the exception that ends the
    loop early, if any. *)
Fixpoint for_pages (E : Env) (pdf_path search_term : string)
    (i : Z) (it : PageIter) (matches : list Z)
  : list event * list Z * option string :=
  match it with
  | IterEnd => ([], matches, None)
  | IterRaise e => ([], matches, Some e)
  | IterNext page rest =>
      match page_matches E search_term page with
      | Ok true =>
          for_pages E pdf_path search_term (i + 1) rest (matches ++ [i + 1])
      | Ok false =>
          for_pages E pdf_path search_term (i + 1) rest matches
      | Raise e =>
          let '(out, m, exc) :=
            for_pages E pdf_path search_term (i + 1) rest matches in
          (Print (page_error_line pdf_path i e) :: out, m, exc)
      end
  end.

(** Leaving the [with] block: an exception of [close] replaces the one of
    the body. *)
Definition with_exit (closing body : option string) : option string :=
  match closing with
  | Some e => Some e
  | None => body
  end.

(** Returns the lines printed and the list of matched pages. *)
Definition search_pdf (E : Env) (pdf_path search_term : string)
  : list event * list Z :=
  match pdf_open E pdf_path with
  | Raise e => ([Print (read_error_line pdf_path e)], [])
  | Ok pdf =>
      let '(out, matches, exc) :=
        for_pages E pdf_path search_term 0 (pages pdf) [] in
      match with_exit (close pdf) exc with
      | Some e => (out ++ [Print (read_error_line pdf_path e)], matches)
      | None => (out, matches)
      end
  end.

(** ** The dictionary of results *)

Definition dict : Type := list (string * list Z).

Definition keys (d : dict) : list string := map fst d.

Fixpoint dict_get (d : dict) (k : string) : option (list Z) :=
  match d with
  | [] => None
  | (k', v) :: d' => if (k' =? k)%string then Some v else dict_get d' k
  end.

(** [d[k] = v]: a key already present keeps its place. *)
Fixpoint dict_set (d : dict) (k : string) (v : list Z) : dict :=
  match d with
  | [] => [(k, v)]
  | (k', v') :: d' =>
      if (k' =? k)%string then (k, v) :: d' else (k', v') :: dict_set d' k v
  end.

(** [d[k]] for a key taken from [d.keys()], where no [KeyError] arises. *)
Definition getitem (d : dict) (k : string) : list Z :=
  match dict_get d k with
  | Some v => v
  | None => []
  end.

(** ** [search_and_open_pdfs]: the scan *)

Record scan_state : Type := mkScan {
  results : dict;
  total_files : Z;
  files_with_matches : Z;
  printed : list event
}.

Definition found_line (relative_path : string) (matches : list Z) : string :=
  ("Found matches in " ++ relative_path ++ " on pages: "
     ++ repr_pages matches)%string.

(** The body of [for filename in files]. *)
Definition visit_file (E : Env) (folder_path search_term root : string)
    (st : scan_state) (filename : string) : scan_state :=
  if endswith (lower filename) ".pdf" then
    let pdf_path := path_join E root filename in
    let '(out, matches) := search_pdf E pdf_path search_term in
    match matches with
    | [] =>
        mkScan (results st) (total_files st + 1) (files_with_matches st)
               (printed st ++ out)
    | _ :: _ =>
        mkScan (dict_set (results st) pdf_path matches)
               (total_files st + 1) (files_with_matches st + 1)
               (printed st ++ out ++
                [Print (found_line (relpath E pdf_path folder_path) matches)])
    end
  else st.

(** The body of [for root, dirs, files in os.walk(folder_path)]. *)
Definition visit_dir (E : Env) (folder_path search_term : string)
    (st : scan_state) (entry : string * list string * list string)
  : scan_state :=
  let '(root, _, files) := entry in
  fold_left (visit_file E folder_path search_term root) files st.

Definition searching_line (search_term folder_path : string) : string :=
  ("Searching for '" ++ search_term ++ "' in " ++ folder_path
     ++ " and its subfolders...")%string.

(** The two loops over the tree, on an absolute, existing [folder_path]. *)
Definition scan (E : Env) (folder_path search_term : string) : scan_state :=
  fold_left (visit_dir E folder_path search_term) (walk E folder_path)
    (mkScan [] 0 0 [Print (searching_line search_term folder_path)]).

(** ** [open_pdf_with_foxit] *)

Definition foxit_default : string :=
  "C:\Program Files (x86)\Foxit Software\Foxit PDF Reader\FoxitPDFReader.exe".

Definition foxit_alternate : string :=
  "C:\Program Files\Foxit Software\Foxit PDF Reader\FoxitPDFReader.exe".

Definition foxit_not_found_line : string :=
  "Foxit Reader not found. Please update the path in the script.".

Definition foxit_command (foxit_path pdf_path : string) (page_number : Z)
  : list string :=
  [foxit_path; "/A"; ("page=" ++ str_of_Z page_number)%string; pdf_path].

(** The [try] around [subprocess.Popen(command)]. *)
Definition launch (E : Env) (foxit_path pdf_path : string) (page_number : Z)
  : list event * bool :=
  let command := foxit_command foxit_path pdf_path page_number in
  match popen E command with
  | None =>
      ([Popen command;
        Print ("Opening " ++ basename E pdf_path ++ " at page "
                 ++ str_of_Z page_number)%string], true)
  | Some e => ([Popen command; Print ("Error opening PDF: " ++ e)%string], false)
  end.

Definition open_pdf_with_foxit (E : Env) (pdf_path : string) (page_number : Z)
  : list event * bool :=
  if negb (path_exists E foxit_default) then
    if negb (path_exists E foxit_alternate) then
      ([Print foxit_not_found_line], false)
    else launch E foxit_alternate pdf_path page_number
  else launch E foxit_default pdf_path page_number.

(** ** [open_pdfs] *)

(** How a call ends: it returns, or [input] finds the end of the input and
    its [EOFError] leaves the function. *)
Inductive outcome : Type :=
| Returned
| EOFError.

Definition newline : ascii := ascii_of_nat 10.

Definition nl : string := String newline "".

Definition file_prompt : string :=
  (nl ++ "Enter the number of the PDF to open (or 'all' to open all, 'q' to quit): ")%string.

Definition page_prompt (pages : list Z) : string :=
  ("Multiple matches found. Enter page number to open " ++ repr_pages pages
     ++ " or 'all' to open all: ")%string.

Definition invalid_page_line (pages : list Z) : string :=
  ("Invalid page number. Must be one of " ++ repr_pages pages)%string.

Definition invalid_page_input_line : string :=
  "Invalid input. Please enter a valid page number.".

Definition invalid_choice_line : string :=
  "Invalid choice. Please enter a number from the list.".

Definition invalid_input_line : string :=
  "Invalid input. Please enter a number or 'all' or 'q'.".

(** The loop that lists the files, from index [i] on. *)
Fixpoint listing (E : Env) (results : dict) (i : Z) (pdf_list : list string)
  : list event :=
  match pdf_list with
  | [] => []
  | pdf_path :: l =>
      let pages := getitem results pdf_path in
      Print (str_of_Z (i + 1) ++ ". " ++ basename E pdf_path ++ " ("
               ++ str_of_Z (len pages) ++ " matches on pages "
               ++ repr_pages pages ++ ")")%string
      :: Print ("   Location: " ++ dirname E pdf_path)%string
      :: listing E results (i + 1) l
  end.

(** The branch of [all]: [for pdf_path, pages in results.items()]. *)
Fixpoint open_all (E : Env) (items : dict) : list event :=
  match items with
  | [] => []
  | (pdf_path, pages) :: l =>
      match pages with
      | page :: _ => fst (open_pdf_with_foxit E pdf_path page) ++ open_all E l
      | [] => open_all E l
      end
  end.

(** [for page in pages: open_pdf_with_foxit(pdf_path, page)] *)
Fixpoint open_each (E : Env) (pdf_path : string) (pages : list Z)
  : list event :=
  match pages with
  | [] => []
  | page :: l => fst (open_pdf_with_foxit E pdf_path page) ++ open_each E pdf_path l
  end.

(** [page in pages] *)
Definition page_in (page : Z) (pages : list Z) : bool :=
  existsb (Z.eqb page) pages.

(** The answer to the page prompt. *)
Definition page_choice_step (E : Env) (pdf_path : string) (pages : list Z)
    (page_choice : string) : list event :=
  if (lower page_choice =? "all")%string then open_each E pdf_path pages
  else
    match py_int E page_choice with
    | Some page =>
        if page_in page pages then fst (open_pdf_with_foxit E pdf_path page)
        else [Print (invalid_page_line pages)]
    | None => [Print invalid_page_input_line]
    end.

Definition prepend (evs : list event) (r : list event * outcome * list string)
  : list event * outcome * list string :=
  let '(out, o, rest) := r in (evs ++ out, o, rest).

(** The loop [while True], reading the lines of [inputs].  Returns the
    events, how the loop ends and the lines left unread. *)
Fixpoint selection_loop (E : Env) (results : dict) (pdf_list : list string)
    (inputs : list string) : list event * outcome * list string :=
  match inputs with
  | [] => ([Input file_prompt], EOFError, [])
  | choice :: rest =>
      if (lower choice =? "q")%string then ([Input file_prompt], Returned, rest)
      else if (lower choice =? "all")%string then
        (Input file_prompt :: open_all E results, Returned, rest)
      else
        match py_int E choice with
        | None =>
            prepend [Input file_prompt; Print invalid_input_line]
              (selection_loop E results pdf_list rest)
        | Some n =>
            let idx := n - 1 in
            if (0 <=? idx) && (idx <? len pdf_list) then
              let pdf_path := nth (Z.to_nat idx) pdf_list "" in
              let pages := getitem results pdf_path in
              if len pages =? 1 then
                prepend
                  (Input file_prompt
                     :: fst (open_pdf_with_foxit E pdf_path (hd 0 pages)))
                  (selection_loop E results pdf_list rest)
              else
                match rest with
                | [] =>
                    ([Input file_prompt; Input (page_prompt pages)], EOFError, [])
                | page_choice :: rest' =>
                    prepend
                      (Input file_prompt :: Input (page_prompt pages)
                         :: page_choice_step E pdf_path pages page_choice)
                      (selection_loop E results pdf_list rest')
                end
            else
              prepend [Input file_prompt; Print invalid_choice_line]
                (selection_loop E results pdf_list rest)
        end
  end.

Definition open_pdfs (E : Env) (results : dict) (inputs : list string)
  : list event * outcome * list string :=
  match results with
  | [] => ([Print "No matches found."], Returned, inputs)
  | _ :: _ =>
      let pdf_list := keys results in
      prepend
        (Print (nl ++ "Found matches in the following PDFs:")%string
           :: listing E results 0 pdf_list)
        (selection_loop E results pdf_list inputs)
  end.

(** ** [search_and_open_pdfs] and the script *)

Definition complete_line (st : scan_state) : string :=
  (nl ++ "Search complete. Found matches in "
      ++ str_of_Z (files_with_matches st) ++ " of "
      ++ str_of_Z (total_files st) ++ " PDF files.")%string.

Definition search_and_open_pdfs (E : Env) (folder_path search_term : string)
    (inputs : list string) : list event * outcome * list string :=
  let folder_path := abspath E folder_path in
  if negb (isdir E folder_path) then
    ([Print ("Folder not found: " ++ folder_path)%string], Returned, inputs)
  else
    let st := scan E folder_path search_term in
    prepend (printed st ++ [Print (complete_line st)])
      (open_pdfs E (results st) inputs).

Definition main (E : Env) (inputs : list string)
  : list event * outcome * list string :=
  search_and_open_pdfs E "E:\Devs\Python\PdfSearcher\test"
    "ouverture de connexion TCP" inputs.

(** ** Notions used to state the properties *)

(** The [k]-th page the iteration yields (from 0). *)
Fixpoint nth_page (it : PageIter) (k : nat) : option Page :=
  match it, k with
  | IterNext page _, O => Some page
  | IterNext _ rest, S k' => nth_page rest k'
  | _, _ => None
  end.

(** The number of pages the iteration yields. *)
Fixpoint iter_length (it : PageIter) : nat :=
  match it with
  | IterNext _ rest => S (iter_length rest)
  | _ => O
  end.

(** The iteration that yields the pages of [ps] and then goes on as [tail]. *)
Fixpoint iter_of (ps : list Page) (tail : PageIter) : PageIter :=
  match ps with
  | [] => tail
  | page :: ps' => IterNext page (iter_of ps' tail)
  end.

(** The pages of the file at [pdf_path]; none when it does not open. *)
Definition pages_of (E : Env) (pdf_path : string) : PageIter :=
  match pdf_open E pdf_path with
  | Ok pdf => pages pdf
  | Raise _ => IterEnd
  end.

Definition page_count (E : Env) (pdf_path : string) : Z :=
  Z.of_nat (iter_length (pages_of E pdf_path)).

(** The pages the loop adds to [matches], from index [i] on. *)
Fixpoint matched_from (E : Env) (search_term : string) (i : Z) (it : PageIter)
  : list Z :=
  match it with
  | IterNext page rest =>
      match page_matches E search_term page with
      | Ok true => (i + 1) :: matched_from E search_term (i + 1) rest
      | _ => matched_from E search_term (i + 1) rest
      end
  | _ => []
  end.

Definition is_pdf_name (filename : string) : bool :=
  endswith (lower filename) ".pdf".

(** The paths the scan hands to [search_pdf], in order. *)
Definition scanned_pdfs (E : Env) (folder_path : string) : list string :=
  flat_map (fun entry : string * list string * list string =>
              let '(root, _, files) := entry in
              map (path_join E root) (filter is_pdf_name files))
           (walk E folder_path).

Definition has_matches (E : Env) (search_term pdf_path : string) : bool :=
  match snd (search_pdf E pdf_path search_term) with
  | [] => false
  | _ :: _ => true
  end.

(** [p in seen], as a boolean. *)
Definition mem_path (p : string) (seen : list string) : bool :=
  existsb (String.eqb p) seen.

(** What holds of the state of the scan once the files [seen] have been
    handed to [search_pdf]. *)
Definition scan_inv (E : Env) (search_term : string) (seen : list string)
    (st : scan_state) : Prop :=
  (forall p,
     dict_get (results st) p =
     if mem_path p seen && has_matches E search_term p
     then Some (snd (search_pdf E p search_term)) else None) /\
  total_files st = len seen /\
  files_with_matches st = len (filter (has_matches E search_term) seen).

(** The commands passed to [subprocess.Popen], in order. *)
Fixpoint popens (out : list event) : list (list string) :=
  match out with
  | [] => []
  | Popen command :: l => command :: popens l
  | _ :: l => popens l
  end.

(** The prompt of the first [input] that follows the first [print(line)]. *)
Fixpoint first_prompt (out : list event) : option string :=
  match out with
  | [] => None
  | Input prompt :: _ => Some prompt
  | _ :: l => first_prompt l
  end.

Fixpoint prompt_after (line : string) (out : list event) : option string :=
  match out with
  | [] => None
  | Print l :: rest =>
      if (l =? line)%string then first_prompt rest else prompt_after line rest
  | _ :: rest => prompt_after line rest
  end.

(** The viewer is looked for at two places, in this order. *)
Definition viewer_candidates : list string := [foxit_default; foxit_alternate].

Definition resolve_viewer (E : Env) : option string :=
  find (path_exists E) viewer_candidates.

(** The prompts of the calls to [input], in order. *)
Fixpoint prompts (out : list event) : list string :=
  match out with
  | [] => []
  | Input prompt :: l => prompt :: prompts l
  | _ :: l => prompts l
  end.

(** The command opens a file of [results] at one of its listed pages, with
    one of the two known viewers. *)
Definition from_results (results : dict) (command : list string) : Prop :=
  exists exe p pages page,
    In exe viewer_candidates /\ In (p, pages) results /\ In page pages /\
    command = [exe; "/A"; ("page=" ++ str_of_Z page)%string; p].

(** The command opens a scanned file at a page that [search_pdf] matched. *)
Definition from_scan (E : Env) (folder_path search_term : string)
    (command : list string) : Prop :=
  exists exe p page,
    In exe viewer_candidates /\ In p (scanned_pdfs E folder_path) /\
    In page (snd (search_pdf E p search_term)) /\
    command = [exe; "/A"; ("page=" ++ str_of_Z page)%string; p].

(** An answer to the file prompt that is neither [q], nor [all], nor the
    number of a listed file. *)
Definition bad_choice (E : Env) (pdf_list : list string) (choice : string)
  : bool :=
  negb (lower choice =? "q")%string && negb (lower choice =? "all")%string &&
  match py_int E choice with
  | None => true
  | Some n => negb ((0 <=? n - 1) && (n - 1 <? len pdf_list))
  end.

(** The line that answers it. *)
Definition bad_choice_line (E : Env) (choice : string) : string :=
  match py_int E choice with
  | None => invalid_input_line
  | Some _ => invalid_choice_line
  end.

(** [needle in text] on strings. *)
Definition Substring (needle text : string) : Prop :=
  exists pre post, text = (pre ++ needle ++ post)%string.

(** The code points [mid] spell [pattern], character by character, in any
    case. *)
Definition Spells (pattern : string) (mid : ustr) : Prop :=
  Forall2 (fun c x => lit_match c x = true) (list_ascii_of_string pattern) mid.

(** The exception that ends the iteration over the pages, if any. *)
Fixpoint iter_exception (it : PageIter) : option string :=
  match it with
  | IterEnd => None
  | IterRaise e => Some e
  | IterNext _ rest => iter_exception rest
  end.

(** Some page of the iteration makes the body of the inner [try] raise. *)
Fixpoint some_page_raises (E : Env) (search_term : string) (it : PageIter)
  : bool :=
  match it with
  | IterNext page rest =>
      match page_matches E search_term page with
      | Raise _ => true
      | Ok _ => some_page_raises E search_term rest
      end
  | _ => false
  end.

(** A trace of [print] calls only. *)
Definition prints_only (out : list event) : Prop :=
  Forall (fun ev => exists line, ev = Print line) out.

(** What [open_pdfs] can rely on in an entry of the results of a scan. *)
Definition entry_ok (E : Env) (search_term : string) (seen : list string)
    (item : string * list Z) : Prop :=
  In (fst item) seen /\
  snd item = snd (search_pdf E (fst item) search_term) /\
  snd item <> [].

(** The entry of the results for a file with matches. *)
Definition entry_of (E : Env) (search_term p : string) : string * list Z :=
  (p, snd (search_pdf E p search_term)).

(** What the scan keeps true of its state, besides [scan_inv], once the
    files [seen] have been handed to [search_pdf]. *)
Definition scan_state_ok (E : Env) (search_term : string) (seen : list string)
    (st : scan_state) : Prop :=
  Forall (entry_ok E search_term seen) (results st) /\
  NoDup (keys (results st)) /\
  len (results st) <= files_with_matches st /\
  files_with_matches st <= total_files st /\
  prints_only (printed st).

(** The results list the files with matches in the order of the scan. *)
Definition scan_in_order (E : Env) (search_term : string) (seen : list string)
    (st : scan_state) : Prop :=
  NoDup seen ->
  results st =
    map (entry_of E search_term) (filter (has_matches E search_term) seen) /\
  files_with_matches st = len (results st).

(** The value of a run of decimal digits read after [acc], as [digit_run]
    computes it. *)
Fixpoint uint_horner (d : Decimal.uint) (acc : Z) : Z :=
  match d with
  | Decimal.Nil => acc
  | Decimal.D0 l => uint_horner l (acc * 10 + 0)
  | Decimal.D1 l => uint_horner l (acc * 10 + 1)
  | Decimal.D2 l => uint_horner l (acc * 10 + 2)
  | Decimal.D3 l => uint_horner l (acc * 10 + 3)
  | Decimal.D4 l => uint_horner l (acc * 10 + 4)
  | Decimal.D5 l => uint_horner l (acc * 10 + 5)
  | Decimal.D6 l => uint_horner l (acc * 10 + 6)
  | Decimal.D7 l => uint_horner l (acc * 10 + 7)
  | Decimal.D8 l => uint_horner l (acc * 10 + 8)
  | Decimal.D9 l => uint_horner l (acc * 10 + 9)
  end.

(** ** A small installation, for the scenarios

    A folder with [a.pdf] (three pages, the first and the third mention an
    invoice), [b.pdf] (two pages, neither does) and [notes.txt]. *)
Module Demo.

Definition root : string := "C:\docs".

Definition text_page (text : string) : Page :=
  mkPage (Ok (Some (codes text))).

Definition a_pdf : Pdf :=
  mkPdf (IterNext (text_page "Invoice 2024-17")
        (IterNext (text_page "terms and conditions")
        (IterNext (text_page "total of the INVOICE") IterEnd))) None.

Definition b_pdf : Pdf :=
  mkPdf (IterNext (text_page "minutes of the meeting")
        (IterNext (mkPage (Ok None)) IterEnd)) None.

(** A file whose second page fails to extract. *)
Definition c_pdf : Pdf :=
  mkPdf (IterNext (text_page "invoice")
        (IterNext (mkPage (Raise "bad stream"))
        (IterNext (text_page "second invoice") IterEnd))) None.

(** A file whose page tree breaks after the first page. *)
Definition d_pdf : Pdf :=
  mkPdf (IterNext (text_page "an invoice") (IterRaise "broken page tree")) None.

Definition join2 (a b : string) : string := (a ++ "\" ++ b)%string.

(** Directory part and last component of a path. *)
Fixpoint split_path (p : string) : option string * string :=
  match p with
  | EmptyString => (None, "")
  | String c p' =>
      match split_path p' with
      | (Some d, b) => (Some (String c d), b)
      | (None, b) =>
          if Ascii.eqb c "\" then (Some "", b) else (None, String c b)
      end
  end.

Fixpoint strip_prefix (pre s : string) : option string :=
  match pre, s with
  | EmptyString, _ => Some s
  | String a pre', String b s' =>
      if Ascii.eqb a b then strip_prefix pre' s' else None
  | _, _ => None
  end.

(** The match relation of the pattern [^b] under [re.IGNORECASE]: a [b], in
    any case, at the start of the text and nowhere else. *)
Definition caret_b : compiled :=
  fun text i j => (i =? 0)%nat && (j =? 1)%nat && spelt_at "b" text.

(** The two patterns with special characters of the scenarios: [invoice(],
    which [re] refuses, and [^b]. *)
Definition compile (pattern : string) (flags : Z) : except compiled :=
  if (pattern =? "invoice(")%string
  then Raise "missing ), unterminated subpattern at position 7"
  else if (pattern =? "^b")%string && (flags =? IGNORECASE)
  then Ok caret_b
  else Raise "pattern outside the scenarios".

Definition open_file (p : string) : except Pdf :=
  if (p =? join2 root "a.pdf")%string then Ok a_pdf
  else if (p =? join2 root "b.pdf")%string then Ok b_pdf
  else if (p =? join2 root "c.pdf")%string then Ok c_pdf
  else if (p =? join2 root "d.pdf")%string then Ok d_pdf
  else Raise "No /Root object! - Is this really a PDF?".

Definition env_with (viewer : string -> bool) : Env :=
  {| abspath := fun p => p;
     isdir := fun p => (p =? root)%string;
     walk := fun p =>
       if (p =? root)%string then [(root, [], ["a.pdf"; "b.pdf"; "notes.txt"])]
       else [];
     path_join := join2;
     relpath := fun p start =>
       match strip_prefix (start ++ "\") p with Some r => r | None => p end;
     basename := fun p => snd (split_path p);
     dirname := fun p =>
       match fst (split_path p) with Some d => d | None => "" end;
     path_exists := viewer;
     pdf_open := open_file;
     popen := fun _ => None;
     sre_compile := compile;
     int_max_str_digits := 4300 |}.

(** Foxit Reader installed at the alternate location. *)
Definition env : Env := env_with (fun p => (p =? foxit_alternate)%string).

(** No viewer installed. *)
Definition env_no_viewer : Env := env_with (fun _ => false).

End Demo.


(** * Properties *)

(** ** Strings *)

Module Str.

Lemma append_nil_r (s : string) : (s ++ "")%string = s.
Proof. induction s as [|c s IH]; simpl; [reflexivity | now rewrite IH]. Qed.

Lemma append_assoc (s t u : string) :
  ((s ++ t) ++ u)%string = (s ++ (t ++ u))%string.
Proof. induction s as [|c s IH]; simpl; [reflexivity | now rewrite IH]. Qed.

Lemma append_eq_nil (s t : string) :
  (s ++ t)%string = "" -> s = "" /\ t = "".
Proof. destruct s; simpl; [auto | discriminate]. Qed.

Lemma append_eq_cons (s t : string) (c : ascii) (u : string) :
  (s ++ t)%string = String c u ->
  (s = "" /\ t = String c u) \/
  (exists s', s = String c s' /\ u = (s' ++ t)%string).
Proof.
  destruct s as [|a s]; simpl; intros H.
  - left; auto.
  - right. injection H as -> <-. now exists s.
Qed.

End Str.

Lemma lower_append (s t : string) :
  lower (s ++ t)%string = (lower s ++ lower t)%string.
Proof. induction s as [|c s IH]; simpl; [reflexivity | now rewrite IH]. Qed.

Lemma endswith_unfold (s suffix : string) :
  endswith s suffix =
  (s =? suffix)%string ||
  match s with
  | EmptyString => false
  | String _ s' => endswith s' suffix
  end.
Proof. destruct s; reflexivity. Qed.

(** [endswith] holds exactly of the strings that are some stem followed by
    the suffix. *)
Lemma endswith_spec (s suffix : string) :
  endswith s suffix = true <-> exists stem, s = (stem ++ suffix)%string.
Proof.
  induction s as [|c s IH]; rewrite endswith_unfold.
  - rewrite orb_false_r, String.eqb_eq. split.
    + intros <-. now exists "".
    + intros [stem H]. symmetry in H.
      apply Str.append_eq_nil in H. symmetry. apply H.
  - rewrite orb_true_iff, String.eqb_eq, IH. split.
    + intros [<- | [stem ->]].
      * now exists "".
      * now exists (String c stem).
    + intros [[|a stem] H]; simpl in H.
      * left. exact H.
      * right. injection H as _ ->. now exists stem.
Qed.

(** [int] on some lines: the white space around the number is dropped, the
    separator U+001C is not; underscores go between digits only. *)
Example int_of_str_examples :
  int_of_str 4300 " 12 " = Some 12 /\
  int_of_str 4300 "-7" = Some (-7) /\
  int_of_str 4300 "+1_000" = Some 1000 /\
  int_of_str 4300 (String (ascii_of_nat 28) "1") = None /\
  int_of_str 4300 (String "1" (String (ascii_of_nat 31) "")) = None /\
  int_of_str 4300 (String (ascii_of_nat 160) "1") = Some 1 /\
  int_of_str 4300 "1_" = None /\
  int_of_str 4300 "+ 1" = None /\
  int_of_str 4300 "" = None.
Proof. repeat split. Qed.

(** ** [re.search] finds exactly the parts of the text that match *)

Section Regex.

Lemma search_spec (p : compiled) (text : ustr) :
  search p text = true <-> Contains p text.
Proof.
  unfold search, Contains. rewrite existsb_exists. split.
  - intros (i & Hi & H). apply existsb_exists in H as (j & Hj & H).
    apply in_seq in Hi. apply in_seq in Hj.
    exists i, j. split; [lia | exact H].
  - intros (i & j & Hij & H). exists i. split; [apply in_seq; lia|].
    apply existsb_exists. exists j. split; [apply in_seq; lia | exact H].
Qed.

Lemma spelt_at_spec (pattern : string) :
  forall text,
    spelt_at pattern text = true <->
    exists mid post, text = mid ++ post /\ Spells pattern mid.
Proof.
  unfold Spells. induction pattern as [|c p IH]; intros text; simpl.
  - split; [|reflexivity].
    intros _. exists [], text. split; [reflexivity | constructor].
  - destruct text as [|x t].
    + split; [discriminate|].
      intros (mid & post & E & H). inversion H; subst. discriminate.
    + rewrite andb_true_iff, IH. split.
      * intros [Hc (mid & post & -> & H)]. exists (x :: mid), post.
        split; [reflexivity | constructor; auto].
      * intros (mid & post & E & H).
        inversion H as [|c' x' l l' Hc Hrest]; subst.
        simpl in E. injection E as -> ->.
        split; [exact Hc | now exists l', post].
Qed.

Lemma length_list_ascii (s : string) :
  List.length (list_ascii_of_string s) = String.length s.
Proof. induction s as [|c s IH]; simpl; [reflexivity | now rewrite IH]. Qed.

Lemma Spells_length (pattern : string) (mid : ustr) :
  Spells pattern mid -> List.length mid = String.length pattern.
Proof.
  intros H. apply Forall2_length in H.
  now rewrite <- H, length_list_ascii.
Qed.

Lemma skipn_length_app (A : Type) (pre l : list A) :
  skipn (List.length pre) (pre ++ l) = l.
Proof. induction pre as [|x pre IH]; simpl; auto. Qed.

(** A pattern without special characters matches the parts of the text
    that spell it. *)
Lemma contains_literal (pattern : string) (text : ustr) :
  Contains (literal pattern) text <->
  exists pre mid post, text = pre ++ mid ++ post /\ Spells pattern mid.
Proof.
  unfold Contains, literal. split.
  - intros (i & j & Hij & H). apply andb_true_iff in H as [_ H].
    apply spelt_at_spec in H as (mid & post & E & H).
    exists (firstn i text), mid, post. split; [|exact H].
    rewrite <- E. symmetry. apply firstn_skipn.
  - intros (pre & mid & post & -> & H).
    exists (List.length pre), (List.length pre + String.length pattern)%nat.
    split.
    + rewrite !length_app, (Spells_length H). lia.
    + rewrite Nat.eqb_refl, skipn_length_app. apply spelt_at_spec.
      now exists mid, post.
Qed.

End Regex.

(** An anchored pattern sees where in the text it stands: [^b] finds the [b]
    that opens a text and not the one inside, which the plain pattern [b]
    finds; and the letters [re.IGNORECASE] identifies go beyond Latin-1,
    [k] finding the Kelvin sign U+212A. *)
Example search_examples :
  re_search Demo.env "^b" (codes "Bus") IGNORECASE = Ok true /\
  re_search Demo.env "^b" (codes "ab") IGNORECASE = Ok false /\
  re_search Demo.env "b" (codes "ab") IGNORECASE = Ok true /\
  re_search Demo.env "k" [50; 8490]%N IGNORECASE = Ok true /\
  re_search Demo.env "ss" [223]%N IGNORECASE = Ok false.
Proof. repeat split. Qed.

(** ** [search_pdf] *)

Section SearchPdf.

Variable E : Env.
Variables pdf_path search_term : string.

Lemma for_pages_matches (it : PageIter) :
  forall i acc,
    snd (fst (for_pages E pdf_path search_term i it acc)) =
    acc ++ matched_from E search_term i it.
Proof.
  induction it as [| e | page rest IH]; intros i acc; simpl.
  - now rewrite app_nil_r.
  - now rewrite app_nil_r.
  - destruct (page_matches E search_term page) as [[|] | e].
    + rewrite IH, <- app_assoc. reflexivity.
    + apply IH.
    + specialize (IH (i + 1) acc).
      destruct (for_pages E pdf_path search_term (i + 1) rest acc)
        as [[out m] exc]. exact IH.
Qed.

(** The exception that ends the loop is the one of the iteration. *)
Lemma for_pages_exception (ps : list Page) (tail : PageIter) :
  forall i acc,
    snd (for_pages E pdf_path search_term i (iter_of ps tail) acc) =
    snd (for_pages E pdf_path search_term (i + Z.of_nat (List.length ps)) tail
           (acc ++ matched_from E search_term i (iter_of ps IterEnd))).
Proof.
  induction ps as [|page ps IH]; intros i acc; simpl.
  - now rewrite Z.add_0_r, app_nil_r.
  - replace (i + Z.pos (Pos.of_succ_nat (List.length ps)))
      with (i + 1 + Z.of_nat (List.length ps)) by lia.
    destruct (page_matches E search_term page) as [[|] | e].
    + rewrite IH, <- app_assoc. reflexivity.
    + apply IH.
    + specialize (IH (i + 1) acc).
      destruct (for_pages E pdf_path search_term (i + 1) (iter_of ps tail) acc)
        as [[out m] exc]. simpl. exact IH.
Qed.

Lemma matched_from_iter_of (ps : list Page) (tail : PageIter) :
  forall i,
    matched_from E search_term i (iter_of ps tail) =
    matched_from E search_term i (iter_of ps IterEnd) ++
    matched_from E search_term (i + Z.of_nat (List.length ps)) tail.
Proof.
  induction ps as [|page ps IH]; intros i; simpl.
  - now rewrite Z.add_0_r.
  - replace (i + Z.pos (Pos.of_succ_nat (List.length ps)))
      with (i + 1 + Z.of_nat (List.length ps)) by lia.
    destruct (page_matches E search_term page) as [[|] | e];
      rewrite IH; reflexivity.
Qed.

Lemma matched_from_In (it : PageIter) :
  forall i n,
    In n (matched_from E search_term i it) <->
    exists k page,
      nth_page it k = Some page /\ n = i + Z.of_nat k + 1 /\
      page_matches E search_term page = Ok true.
Proof.
  induction it as [| e | page rest IH]; intros i n; simpl.
  - split; [tauto | intros (k & pg & H & _); destruct k; discriminate].
  - split; [tauto | intros (k & pg & H & _); destruct k; discriminate].
  - assert (Hrest :
      In n (matched_from E search_term (i + 1) rest) <->
      exists k pg, nth_page (IterNext page rest) (S k) = Some pg /\
                   n = i + Z.of_nat (S k) + 1 /\
                   page_matches E search_term pg = Ok true).
    { rewrite IH. split; intros (k & pg & H1 & H2 & H3);
        exists k, pg; (split; [exact H1 | split; [lia | exact H3]]). }
    destruct (page_matches E search_term page) as [[|] | e] eqn:Ep.
    + simpl. rewrite Hrest. split.
      * intros [<- | (k & pg & H)].
        -- exists O, page.
           split; [reflexivity | split; [lia | exact Ep]].
        -- now exists (S k), pg.
      * intros ([|k] & pg & H1 & H2 & H3).
        -- left. simpl in H2. lia.
        -- right. now exists k, pg.
    + rewrite Hrest. split.
      * intros (k & pg & H). now exists (S k), pg.
      * intros ([|k] & pg & H1 & H2 & H3).
        -- simpl in H1. injection H1 as <-. congruence.
        -- now exists k, pg.
    + rewrite Hrest. split.
      * intros (k & pg & H). now exists (S k), pg.
      * intros ([|k] & pg & H1 & H2 & H3).
        -- simpl in H1. injection H1 as <-. congruence.
        -- now exists k, pg.
Qed.

Lemma nth_page_lt (it : PageIter) :
  forall k page, nth_page it k = Some page -> (k < iter_length it)%nat.
Proof.
  induction it as [| e | pg rest IH]; intros [|k] page H; simpl in *;
    try discriminate; [lia | apply IH in H; lia].
Qed.

Lemma matched_from_bounds (it : PageIter) (i n : Z) :
  In n (matched_from E search_term i it) ->
  i + 1 <= n <= i + Z.of_nat (iter_length it).
Proof.
  rewrite matched_from_In. intros (k & page & H & -> & _).
  apply nth_page_lt in H. lia.
Qed.

Lemma matched_from_sorted (it : PageIter) :
  forall i, StronglySorted Z.lt (matched_from E search_term i it).
Proof.
  induction it as [| e | page rest IH]; intros i; simpl; try constructor.
  destruct (page_matches E search_term page) as [[|] | e]; try apply IH.
  constructor; [apply IH|].
  apply Forall_forall. intros n Hn. apply matched_from_bounds in Hn. lia.
Qed.

Lemma for_pages_logs_error (it : PageIter) :
  forall i acc k page e,
    nth_page it k = Some page ->
    page_matches E search_term page = Raise e ->
    In (Print (page_error_line pdf_path (i + Z.of_nat k) e))
       (fst (fst (for_pages E pdf_path search_term i it acc))).
Proof.
  induction it as [| e' | pg rest IH]; intros i acc [|k] page e Hk He;
    simpl in Hk; try discriminate.
  - injection Hk as ->. simpl. rewrite He.
    destruct (for_pages E pdf_path search_term (i + 1) rest acc)
      as [[out m] exc]. simpl. left. now rewrite Z.add_0_r.
  - simpl.
    replace (i + Z.pos (Pos.of_succ_nat k)) with (i + 1 + Z.of_nat k) by lia.
    destruct (page_matches E search_term pg) as [[|] | e0].
    + now apply IH with (page := page).
    + now apply IH with (page := page).
    + specialize (IH (i + 1) acc k page e Hk He).
      destruct (for_pages E pdf_path search_term (i + 1) rest acc)
        as [[out m] exc]. simpl in *. right. exact IH.
Qed.

(** The list [search_pdf] returns. *)
Lemma search_pdf_matches :
  snd (search_pdf E pdf_path search_term) =
  matched_from E search_term 0 (pages_of E pdf_path).
Proof.
  unfold search_pdf, pages_of.
  destruct (pdf_open E pdf_path) as [pdf | e]; [|reflexivity].
  pose proof (for_pages_matches (pages pdf) 0 []) as H.
  destruct (for_pages E pdf_path search_term 0 (pages pdf) [])
    as [[out m] exc]. simpl in H.
  destruct (with_exit (close pdf) exc); simpl; exact H.
Qed.

Lemma search_pdf_log (pdf : Pdf) :
  pdf_open E pdf_path = Ok pdf ->
  exists tail,
    fst (search_pdf E pdf_path search_term) =
    fst (fst (for_pages E pdf_path search_term 0 (pages pdf) [])) ++ tail.
Proof.
  intros Ho. unfold search_pdf. rewrite Ho.
  destruct (for_pages E pdf_path search_term 0 (pages pdf) [])
    as [[out m] exc]. simpl.
  destruct (with_exit (close pdf) exc); simpl.
  - eexists. reflexivity.
  - exists []. now rewrite app_nil_r.
Qed.

End SearchPdf.

Lemma page_matches_spec (E : Env) (search_term : string) (page : Page) :
  page_matches E search_term page = Ok true <->
  exists text p,
    extract_text page = Ok (Some text) /\ text <> [] /\
    re_compile E search_term IGNORECASE = Ok p /\ Contains p text.
Proof.
  unfold page_matches, re_search. split.
  - destruct (extract_text page) as [[[|x text]|] | e]; try discriminate.
    destruct (re_compile E search_term IGNORECASE) as [p | e];
      try discriminate.
    intros H. injection H as H. exists (x :: text), p.
    split; [reflexivity|]. split; [discriminate|].
    split; [reflexivity | now apply search_spec].
  - intros (text & p & -> & Hne & -> & Hc).
    destruct text as [|x text]; [now destruct Hne|].
    apply search_spec in Hc. now rewrite Hc.
Qed.

Lemma search_pdf_In_page (E : Env) (pdf_path search_term : string)
    (pdf : Pdf) (k : nat) (page : Page) :
  pdf_open E pdf_path = Ok pdf ->
  nth_page (pages pdf) k = Some page ->
  In (Z.of_nat k + 1) (snd (search_pdf E pdf_path search_term)) <->
  page_matches E search_term page = Ok true.
Proof.
  intros Ho Hk. rewrite search_pdf_matches, matched_from_In.
  unfold pages_of. rewrite Ho. split.
  - intros (k' & pg & H1 & H2 & H3).
    assert (k' = k) as -> by (apply Nat2Z.inj; lia). congruence.
  - intros H. exists k, page.
    split; [exact Hk | split; [lia | exact H]].
Qed.

Lemma nth_page_iter_of_end (ps : list Page) :
  forall k, nth_page (iter_of ps IterEnd) k = nth_error ps k.
Proof.
  induction ps as [|p ps IH]; intros [|k]; simpl; auto.
Qed.

(** C2: a page is in the list of matches exactly when its extracted text is
    not empty and has a part that the pattern, compiled with
    [re.IGNORECASE], matches; so the pattern [foo] finds a page whose text
    contains [FOO], [Foo] or [fOo]. *)
Theorem page_matched_iff_text_contains (E : Env)
    (pdf_path search_term : string) (pdf : Pdf) (k : nat) (page : Page) :
  pdf_open E pdf_path = Ok pdf ->
  nth_page (pages pdf) k = Some page ->
  (In (Z.of_nat k + 1) (snd (search_pdf E pdf_path search_term)) <->
   exists text p,
     extract_text page = Ok (Some text) /\ text <> [] /\
     re_compile E search_term IGNORECASE = Ok p /\ Contains p text) /\
  (forall pre post variant,
     In variant ["FOO"; "Foo"; "fOo"] ->
     extract_text page = Ok (Some (pre ++ codes variant ++ post)) ->
     In (Z.of_nat k + 1) (snd (search_pdf E pdf_path "foo"))).
Proof.
  intros Ho Hk. split.
  - rewrite (@search_pdf_In_page E pdf_path search_term pdf k page Ho Hk).
    apply page_matches_spec.
  - intros pre post variant Hv Ht.
    rewrite (@search_pdf_In_page E pdf_path "foo" pdf k page Ho Hk).
    apply page_matches_spec.
    exists (pre ++ codes variant ++ post), (literal "foo").
    split; [exact Ht|]. split.
    + simpl in Hv. destruct Hv as [<- | [<- | [<- | []]]];
        destruct pre; discriminate.
    + split; [reflexivity|]. apply contains_literal.
      exists pre, (codes variant), post. split; [reflexivity|].
      simpl in Hv. destruct Hv as [<- | [<- | [<- | []]]];
        repeat constructor.
Qed.

Lemma page_matched_iff_text_contains_witness :
  pdf_open Demo.env "C:\docs\a.pdf" = Ok Demo.a_pdf /\
  nth_page (pages Demo.a_pdf) 2 = Some (Demo.text_page "total of the INVOICE") /\
  ((In (Z.of_nat 2 + 1) (snd (search_pdf Demo.env "C:\docs\a.pdf" "invoice")) <->
    exists text p,
      extract_text (Demo.text_page "total of the INVOICE") = Ok (Some text) /\
      text <> [] /\ re_compile Demo.env "invoice" IGNORECASE = Ok p /\
      Contains p text) /\
   (forall pre post variant,
      In variant ["FOO"; "Foo"; "fOo"] ->
      extract_text (Demo.text_page "total of the INVOICE") =
        Ok (Some (pre ++ codes variant ++ post)) ->
      In (Z.of_nat 2 + 1) (snd (search_pdf Demo.env "C:\docs\a.pdf" "foo")))).
Proof.
  split; [reflexivity|]. split; [reflexivity|].
  apply (@page_matched_iff_text_contains Demo.env "C:\docs\a.pdf" "invoice"
           Demo.a_pdf 2 (Demo.text_page "total of the INVOICE"));
    reflexivity.
Defined.

(** C5: the list [search_pdf] returns is strictly ascending, its elements
    are page numbers counted from 1 and none exceeds the number of pages of
    the file; it is empty exactly when no page matches. *)
Theorem search_pdf_pages_ascending (E : Env) (pdf_path search_term : string) :
  StronglySorted Z.lt (snd (search_pdf E pdf_path search_term)) /\
  (forall n, In n (snd (search_pdf E pdf_path search_term)) ->
             1 <= n <= page_count E pdf_path) /\
  (snd (search_pdf E pdf_path search_term) = [] <->
   forall k page,
     nth_page (pages_of E pdf_path) k = Some page ->
     page_matches E search_term page <> Ok true).
Proof.
  rewrite search_pdf_matches. split; [apply matched_from_sorted|]. split.
  - intros n Hn. apply matched_from_bounds in Hn. unfold page_count. lia.
  - split.
    + intros Hnil k page Hk Hm.
      assert (In (0 + Z.of_nat k + 1)
                 (matched_from E search_term 0 (pages_of E pdf_path))) as H
        by (apply matched_from_In; now exists k, page).
      rewrite Hnil in H. exact H.
    + intros Hno.
      destruct (matched_from E search_term 0 (pages_of E pdf_path))
        as [|n l] eqn:Em; [reflexivity|].
      assert (In n (matched_from E search_term 0 (pages_of E pdf_path))) as H
        by (rewrite Em; now left).
      apply matched_from_In in H as (k & page & Hk & _ & Hm).
      now destruct (Hno k page Hk).
Qed.

(** C6: a page whose extraction raises an error gets a line in the log and
    no place in the list of matches, and every later page of the file is
    still put to the test. *)
Theorem bad_page_is_skipped (E : Env) (pdf_path search_term : string)
    (pdf : Pdf) (k : nat) (page : Page) (e : string) :
  pdf_open E pdf_path = Ok pdf ->
  nth_page (pages pdf) k = Some page ->
  extract_text page = Raise e ->
  In (Print (page_error_line pdf_path (Z.of_nat k) e))
     (fst (search_pdf E pdf_path search_term)) /\
  ~ In (Z.of_nat k + 1) (snd (search_pdf E pdf_path search_term)) /\
  (forall j later,
     (k < j)%nat -> nth_page (pages pdf) j = Some later ->
     (In (Z.of_nat j + 1) (snd (search_pdf E pdf_path search_term)) <->
      page_matches E search_term later = Ok true)).
Proof.
  intros Ho Hk He.
  assert (Hr : page_matches E search_term page = Raise e)
    by (unfold page_matches; now rewrite He).
  split; [|split].
  - destruct (@search_pdf_log E pdf_path search_term pdf Ho) as [tail ->].
    apply in_or_app. left.
    apply (@for_pages_logs_error E pdf_path search_term (pages pdf) 0 [] k
             page e Hk Hr).
  - rewrite (@search_pdf_In_page E pdf_path search_term pdf k page Ho Hk). congruence.
  - intros j later _ Hj. apply (@search_pdf_In_page E pdf_path search_term pdf j later Ho Hj).
Qed.

Lemma bad_page_is_skipped_witness :
  pdf_open Demo.env "C:\docs\c.pdf" = Ok Demo.c_pdf /\
  nth_page (pages Demo.c_pdf) 1 = Some (mkPage (Raise "bad stream")) /\
  extract_text (mkPage (Raise "bad stream")) = Raise "bad stream" /\
  In (Print (page_error_line "C:\docs\c.pdf" (Z.of_nat 1) "bad stream"))
     (fst (search_pdf Demo.env "C:\docs\c.pdf" "invoice")) /\
  ~ In (Z.of_nat 1 + 1) (snd (search_pdf Demo.env "C:\docs\c.pdf" "invoice")) /\
  (forall j later,
     (1 < j)%nat -> nth_page (pages Demo.c_pdf) j = Some later ->
     (In (Z.of_nat j + 1) (snd (search_pdf Demo.env "C:\docs\c.pdf" "invoice")) <->
      page_matches Demo.env "invoice" later = Ok true)).
Proof.
  split; [reflexivity|]. split; [reflexivity|]. split; [reflexivity|].
  apply (@bad_page_is_skipped Demo.env "C:\docs\c.pdf" "invoice" Demo.c_pdf 1
           (mkPage (Raise "bad stream")) "bad stream"); reflexivity.
Defined.

(** C10: when the iteration over the pages fails after the pages [ps], the
    caller gets no exception but the matches found among [ps], and the log
    ends with the line for the file. *)
Theorem search_pdf_partial_on_iteration_error (E : Env)
    (pdf_path search_term : string) (pdf : Pdf) (ps : list Page) (e : string) :
  pdf_open E pdf_path = Ok pdf ->
  pages pdf = iter_of ps (IterRaise e) ->
  snd (search_pdf E pdf_path search_term) =
    matched_from E search_term 0 (iter_of ps IterEnd) /\
  (forall n,
     In n (snd (search_pdf E pdf_path search_term)) <->
     exists k page,
       nth_error ps k = Some page /\ n = Z.of_nat k + 1 /\
       page_matches E search_term page = Ok true) /\
  exists out,
    fst (search_pdf E pdf_path search_term) =
    out ++ [Print (read_error_line pdf_path
                     match close pdf with Some c => c | None => e end)].
Proof.
  intros Ho Hp.
  assert (Hm : snd (search_pdf E pdf_path search_term) =
               matched_from E search_term 0 (iter_of ps IterEnd)).
  { rewrite search_pdf_matches. unfold pages_of. rewrite Ho, Hp.
    rewrite matched_from_iter_of. simpl. apply app_nil_r. }
  split; [exact Hm|]. split.
  - intros n. rewrite Hm, matched_from_In. split.
    + intros (k & page & H1 & H2 & H3). exists k, page.
      rewrite nth_page_iter_of_end in H1.
      split; [exact H1 | split; [lia | exact H3]].
    + intros (k & page & H1 & H2 & H3). exists k, page.
      rewrite nth_page_iter_of_end.
      split; [exact H1 | split; [lia | exact H3]].
  - unfold search_pdf. rewrite Ho.
    pose proof (for_pages_exception E pdf_path search_term ps (IterRaise e) 0 [])
      as Hx. rewrite <- Hp in Hx.
    destruct (for_pages E pdf_path search_term 0 (pages pdf) [])
      as [[out m] exc]. simpl in Hx. subst exc.
    exists out. destruct (close pdf); reflexivity.
Qed.

Lemma search_pdf_partial_on_iteration_error_witness :
  pdf_open Demo.env "C:\docs\d.pdf" = Ok Demo.d_pdf /\
  pages Demo.d_pdf =
    iter_of [Demo.text_page "an invoice"] (IterRaise "broken page tree") /\
  snd (search_pdf Demo.env "C:\docs\d.pdf" "invoice") = [1] /\
  snd (search_pdf Demo.env "C:\docs\d.pdf" "invoice") =
    matched_from Demo.env "invoice" 0
      (iter_of [Demo.text_page "an invoice"] IterEnd).
Proof.
  split; [reflexivity|]. split; [reflexivity|]. split; [reflexivity|].
  exact (proj1 (@search_pdf_partial_on_iteration_error Demo.env
                  "C:\docs\d.pdf" "invoice" Demo.d_pdf
                  [Demo.text_page "an invoice"] "broken page tree"
                  eq_refl eq_refl)).
Defined.

(** C7: a file that does not open costs one line of the log and gives the
    empty list, and the loop over the files goes on with the next one. *)
Theorem unreadable_file_is_skipped (E : Env) (pdf_path search_term e : string)
    (folder_path root filename : string) (rest : list string)
    (st : scan_state) :
  pdf_open E pdf_path = Raise e ->
  is_pdf_name filename = true ->
  path_join E root filename = pdf_path ->
  search_pdf E pdf_path search_term =
    ([Print (read_error_line pdf_path e)], []) /\
  fold_left (visit_file E folder_path search_term root) (filename :: rest) st =
  fold_left (visit_file E folder_path search_term root) rest
    (mkScan (results st) (total_files st + 1) (files_with_matches st)
            (printed st ++ [Print (read_error_line pdf_path e)])).
Proof.
  intros Ho Hn Hj.
  assert (Hs : search_pdf E pdf_path search_term =
               ([Print (read_error_line pdf_path e)], []))
    by (unfold search_pdf; now rewrite Ho).
  split; [exact Hs|].
  simpl. unfold visit_file at 2. unfold is_pdf_name in Hn.
  now rewrite Hn, Hj, Hs.
Qed.

Lemma unreadable_file_is_skipped_witness :
  pdf_open Demo.env "C:\docs\e.pdf" =
    Raise "No /Root object! - Is this really a PDF?" /\
  is_pdf_name "e.pdf" = true /\
  path_join Demo.env "C:\docs" "e.pdf" = "C:\docs\e.pdf" /\
  search_pdf Demo.env "C:\docs\e.pdf" "invoice" =
    ([Print (read_error_line "C:\docs\e.pdf"
               "No /Root object! - Is this really a PDF?")], []) /\
  fold_left (visit_file Demo.env "C:\docs" "invoice" "C:\docs")
    ["e.pdf"; "a.pdf"] (mkScan [] 0 0 []) =
  fold_left (visit_file Demo.env "C:\docs" "invoice" "C:\docs") ["a.pdf"]
    (mkScan (results (mkScan [] 0 0 [])) (total_files (mkScan [] 0 0 []) + 1)
       (files_with_matches (mkScan [] 0 0 []))
       (printed (mkScan [] 0 0 []) ++
        [Print (read_error_line "C:\docs\e.pdf"
                  "No /Root object! - Is this really a PDF?")])).
Proof.
  split; [reflexivity|]. split; [reflexivity|]. split; [reflexivity|].
  exact (@unreadable_file_is_skipped Demo.env "C:\docs\e.pdf" "invoice"
           "No /Root object! - Is this really a PDF?" "C:\docs" "C:\docs"
           "e.pdf" ["a.pdf"] (mkScan [] 0 0 []) eq_refl eq_refl eq_refl).
Defined.

(** ** The scan *)

Section Dict.

Lemma dict_get_set (d : dict) (k : string) (v : list Z) (k' : string) :
  dict_get (dict_set d k v) k' =
  if (k =? k')%string then Some v else dict_get d k'.
Proof.
  induction d as [|[k0 v0] d IH]; simpl.
  - reflexivity.
  - destruct (k0 =? k)%string eqn:E0; simpl.
    + apply String.eqb_eq in E0. subst k0.
      destruct (k =? k')%string; reflexivity.
    + rewrite IH. destruct (k0 =? k')%string eqn:E1; [|reflexivity].
      apply String.eqb_eq in E1. subst k0. now rewrite String.eqb_sym, E0.
Qed.

Lemma keys_dict_get (d : dict) (k : string) :
  In k (keys d) <-> exists v, dict_get d k = Some v.
Proof.
  induction d as [|[k0 v0] d IH]; simpl.
  - split; [tauto | intros [v H]; discriminate].
  - destruct (k0 =? k)%string eqn:E0.
    + apply String.eqb_eq in E0. split; [now exists v0 | now left].
    + apply String.eqb_neq in E0. rewrite <- IH. tauto.
Qed.

End Dict.

Lemma mem_path_In (p : string) (seen : list string) :
  mem_path p seen = true <-> In p seen.
Proof.
  unfold mem_path. rewrite existsb_exists. split.
  - intros (x & Hx & He). apply String.eqb_eq in He. now subst.
  - intros H. exists p. split; [exact H | apply String.eqb_refl].
Qed.

Section Scan.

Variable E : Env.
Variables folder_path search_term : string.

Lemma visit_file_other (root : string) (st : scan_state) (filename : string) :
  is_pdf_name filename = false ->
  visit_file E folder_path search_term root st filename = st.
Proof. unfold visit_file, is_pdf_name. now intros ->. Qed.

Lemma mem_path_snoc (p q : string) (seen : list string) :
  mem_path p (seen ++ [q]) = mem_path p seen || (p =? q)%string.
Proof.
  unfold mem_path. rewrite existsb_app. simpl. now rewrite orb_false_r.
Qed.

Lemma len_snoc (A : Type) (l : list A) (x : A) : len (l ++ [x]) = len l + 1.
Proof. unfold len. rewrite length_app. simpl. lia. Qed.

Lemma visit_file_inv (root : string) (seen : list string) (st : scan_state)
    (filename : string) :
  is_pdf_name filename = true ->
  scan_inv E search_term seen st ->
  scan_inv E search_term (seen ++ [path_join E root filename])
           (visit_file E folder_path search_term root st filename).
Proof.
  intros Hn (Hd & Ht & Hf). unfold visit_file. unfold is_pdf_name in Hn.
  rewrite Hn. set (pdf_path := path_join E root filename).
  assert (Hh : has_matches E search_term pdf_path =
               match snd (search_pdf E pdf_path search_term) with
               | [] => false
               | _ :: _ => true
               end) by reflexivity.
  destruct (search_pdf E pdf_path search_term) as [out matches] eqn:Es.
  cbn [snd] in Hh. unfold scan_inv.
  rewrite filter_app. cbn [filter]. rewrite Hh, len_snoc.
  destruct matches as [|n l];
    cbn [results total_files files_with_matches printed].
  - rewrite app_nil_r. split; [|split; [lia | exact Hf]].
    intros p. rewrite Hd, mem_path_snoc.
    destruct (p =? pdf_path)%string eqn:Ep; [|now rewrite orb_false_r].
    apply String.eqb_eq in Ep. subst p.
    now rewrite Hh, !andb_false_r.
  - rewrite len_snoc. split; [|split; [lia | lia]].
    intros p. rewrite dict_get_set, Hd, mem_path_snoc.
    rewrite (String.eqb_sym pdf_path p).
    destruct (p =? pdf_path)%string eqn:Ep.
    + apply String.eqb_eq in Ep. subst p.
      now rewrite Hh, Es, orb_true_r.
    + now rewrite orb_false_r.
Qed.

Lemma visit_files_inv (root : string) (files : list string) :
  forall seen st,
    scan_inv E search_term seen st ->
    scan_inv E search_term (seen ++ map (path_join E root) (filter is_pdf_name files))
             (fold_left (visit_file E folder_path search_term root) files st).
Proof.
  induction files as [|f files IH]; intros seen st Hi; simpl.
  - now rewrite app_nil_r.
  - destruct (is_pdf_name f) eqn:Hn.
    + simpl.
      replace (seen ++ path_join E root f ::
                 map (path_join E root) (filter is_pdf_name files))
        with ((seen ++ [path_join E root f]) ++
                map (path_join E root) (filter is_pdf_name files))
        by now rewrite <- app_assoc.
      apply IH. now apply visit_file_inv.
    + rewrite visit_file_other by exact Hn. now apply IH.
Qed.

Lemma visit_dirs_inv (entries : list (string * list string * list string)) :
  forall seen st,
    scan_inv E search_term seen st ->
    scan_inv E search_term
      (seen ++
       flat_map (fun entry : string * list string * list string =>
                   let '(root, _, files) := entry in
                   map (path_join E root) (filter is_pdf_name files))
                entries)
      (fold_left (visit_dir E folder_path search_term) entries st).
Proof.
  induction entries as [|[[root dirs] files] entries IH]; intros seen st Hi;
    simpl.
  - now rewrite app_nil_r.
  - rewrite app_assoc. apply IH. now apply visit_files_inv.
Qed.

Lemma scan_inv_scan :
  scan_inv E search_term (scanned_pdfs E folder_path) (scan E folder_path search_term).
Proof.
  unfold scan, scanned_pdfs.
  apply (visit_dirs_inv (walk E folder_path) (seen := [])).
  repeat split.
Qed.

End Scan.

Lemma has_matches_true (E : Env) (search_term p : string) :
  has_matches E search_term p = true <->
  snd (search_pdf E p search_term) <> [].
Proof.
  unfold has_matches.
  destruct (snd (search_pdf E p search_term)); split; intros H;
    try discriminate; try reflexivity; now destruct H.
Qed.

(** C1: after a scan, the keys of the results are exactly the scanned files
    whose list of matched pages is not empty, and each is bound to that
    list. *)
Theorem results_keys_iff_matches (E : Env) (folder_path search_term : string)
    (p : string) :
  (In p (keys (results (scan E folder_path search_term))) <->
   In p (scanned_pdfs E folder_path) /\
   snd (search_pdf E p search_term) <> []) /\
  (forall m,
     dict_get (results (scan E folder_path search_term)) p = Some m ->
     m = snd (search_pdf E p search_term) /\ m <> []).
Proof.
  destruct (scan_inv_scan E folder_path search_term) as (Hd & _ & _).
  specialize (Hd p). split.
  - rewrite keys_dict_get, Hd, <- mem_path_In, <- has_matches_true.
    destruct (mem_path p (scanned_pdfs E folder_path));
      destruct (has_matches E search_term p); simpl; split;
      try (intros [v H]; discriminate); try (intros [H1 H2]; discriminate).
    + auto.
    + intros _. eexists. reflexivity.
  - intros m Hm. rewrite Hd in Hm.
    destruct (mem_path p (scanned_pdfs E folder_path)); simpl in Hm;
      [|discriminate].
    destruct (has_matches E search_term p) eqn:Hh; [|discriminate].
    injection Hm as <-. split; [reflexivity | now apply has_matches_true].
Qed.

Lemma lower_split (s a b : string) :
  lower s = (a ++ b)%string ->
  exists s1 s2, s = (s1 ++ s2)%string /\ lower s1 = a /\ lower s2 = b.
Proof.
  revert s. induction a as [|c a IH]; intros s H; simpl in H.
  - now exists "", s.
  - destruct s as [|x s]; simpl in H; [discriminate|].
    injection H as Hc Hs. destruct (IH s Hs) as (s1 & s2 & -> & <- & <-).
    exists (String x s1), s2. simpl. now rewrite Hc.
Qed.

(** C8: the scan takes the files whose name ends in [.pdf], in any case,
    and no other; it counts every one of them, and counts apart those with
    a match.  With [a.pdf] (matches on pages 1 and 3), [b.pdf] (no match)
    and [notes.txt] it finds [{a.pdf: [1, 3]}], 2 files, 1 with matches. *)
Theorem scan_counts_pdf_files (E : Env) (folder_path search_term : string) :
  (forall filename,
     is_pdf_name filename = true <->
     exists stem ext,
       filename = (stem ++ ext)%string /\ lower ext = ".pdf") /\
  (forall root st filename,
     is_pdf_name filename = false ->
     visit_file E folder_path search_term root st filename = st) /\
  total_files (scan E folder_path search_term) =
    len (scanned_pdfs E folder_path) /\
  files_with_matches (scan E folder_path search_term) =
    len (filter (has_matches E search_term) (scanned_pdfs E folder_path)) /\
  results (scan Demo.env Demo.root "invoice") = [("C:\docs\a.pdf", [1; 3])] /\
  total_files (scan Demo.env Demo.root "invoice") = 2 /\
  files_with_matches (scan Demo.env Demo.root "invoice") = 1.
Proof.
  split; [|split; [|split; [|split]]].
  - intros filename. unfold is_pdf_name. rewrite endswith_spec. split.
    + intros [stem H]. apply lower_split in H as (s1 & s2 & -> & _ & H).
      now exists s1, s2.
    + intros (stem & ext & -> & H). exists (lower stem).
      now rewrite lower_append, H.
  - intros root st filename. apply visit_file_other.
  - apply (scan_inv_scan E folder_path search_term).
  - apply (scan_inv_scan E folder_path search_term).
  - repeat split.
Qed.

(** ** The opener *)

Section Opener.

Variable E : Env.

Lemma popens_app (a b : list event) : popens (a ++ b) = popens a ++ popens b.
Proof.
  induction a as [|[line | prompt | command] a IH]; simpl;
    [reflexivity | exact IH | exact IH | now rewrite IH].
Qed.

Lemma popens_listing (results : dict) (pdf_list : list string) :
  forall i, popens (listing E results i pdf_list) = [].
Proof. induction pdf_list as [|p l IH]; intros i; simpl; auto. Qed.

(** The nested tests of [open_pdf_with_foxit] take the first candidate that
    exists. *)
Lemma open_pdf_with_foxit_resolved (pdf_path : string) (page_number : Z) :
  open_pdf_with_foxit E pdf_path page_number =
  match resolve_viewer E with
  | Some exe => launch E exe pdf_path page_number
  | None => ([Print foxit_not_found_line], false)
  end.
Proof.
  unfold open_pdf_with_foxit, resolve_viewer, viewer_candidates.
  cbn [find].
  destruct (path_exists E foxit_default); cbn [negb];
    [reflexivity | destruct (path_exists E foxit_alternate); reflexivity].
Qed.

Lemma resolve_viewer_first (exe : string) :
  resolve_viewer E = Some exe ->
  path_exists E exe = true /\
  (exe = foxit_default \/
   exe = foxit_alternate /\ path_exists E foxit_default = false).
Proof.
  unfold resolve_viewer, viewer_candidates. cbn [find].
  destruct (path_exists E foxit_default) eqn:Hd.
  - intros H. injection H as <-. auto.
  - destruct (path_exists E foxit_alternate) eqn:Ha; [|discriminate].
    intros H. injection H as <-. auto.
Qed.

Lemma popens_launch (exe pdf_path : string) (page_number : Z) :
  popens (fst (launch E exe pdf_path page_number)) =
  [foxit_command exe pdf_path page_number].
Proof. unfold launch. destruct (popen E _); reflexivity. Qed.

Lemma popens_open (exe pdf_path : string) (page_number : Z) :
  resolve_viewer E = Some exe ->
  popens (fst (open_pdf_with_foxit E pdf_path page_number)) =
  [foxit_command exe pdf_path page_number].
Proof.
  intros H. rewrite open_pdf_with_foxit_resolved, H. apply popens_launch.
Qed.

Lemma popens_open_all (exe : string) (items : dict) :
  resolve_viewer E = Some exe ->
  (forall p pages, In (p, pages) items -> pages <> []) ->
  popens (open_all E items) =
  map (fun item => foxit_command exe (fst item) (hd 0 (snd item))) items.
Proof.
  intros Hv. induction items as [|[p pages] items IH]; intros Hne;
    cbn [open_all map fst snd].
  - reflexivity.
  - destruct pages as [|page pages].
    + now destruct (Hne p [] (or_introl eq_refl)).
    + rewrite popens_app, (popens_open _ _ Hv), IH.
      * reflexivity.
      * intros q ps Hq. apply (Hne q ps). now right.
Qed.

Lemma selection_loop_first (results : dict) (pdf_list inputs : list string) :
  exists tail,
    fst (fst (selection_loop E results pdf_list inputs)) =
    Input file_prompt :: tail.
Proof.
  destruct inputs as [|choice rest]; cbn [selection_loop].
  - eexists. reflexivity.
  - destruct (lower choice =? "q")%string; [eexists; reflexivity|].
    destruct (lower choice =? "all")%string; [eexists; reflexivity|].
    destruct (py_int E choice) as [n|].
    + destruct ((0 <=? n - 1) && (n - 1 <? len pdf_list)).
      * destruct (len (getitem results (nth (Z.to_nat (n - 1)) pdf_list "")) =? 1).
        -- destruct (selection_loop E results pdf_list rest) as [[out o] left].
           eexists. reflexivity.
        -- destruct rest as [|page_choice rest']; [eexists; reflexivity|].
           destruct (selection_loop E results pdf_list rest') as [[out o] left].
           eexists. reflexivity.
      * destruct (selection_loop E results pdf_list rest) as [[out o] left].
        eexists. reflexivity.
    + destruct (selection_loop E results pdf_list rest) as [[out o] left].
      eexists. reflexivity.
Qed.

End Opener.

(** C3: on [all] the opener opens every file of the results once, at its
    first matched page, and returns; so two files give two launches. *)
Theorem all_opens_each_file_at_first_page (E : Env) (results : dict)
    (choice : string) (rest : list string) (exe : string) :
  results <> [] ->
  lower choice = "all" ->
  (forall p pages, In (p, pages) results -> pages <> []) ->
  resolve_viewer E = Some exe ->
  (forall pdf_list,
     selection_loop E results pdf_list (choice :: rest) =
     (Input file_prompt :: open_all E results, Returned, rest)) /\
  popens (open_all E results) =
    map (fun item => foxit_command exe (fst item) (hd 0 (snd item))) results /\
  snd (fst (open_pdfs E results (choice :: rest))) = Returned /\
  snd (open_pdfs E results (choice :: rest)) = rest /\
  popens (fst (fst (open_pdfs E results (choice :: rest)))) =
    map (fun item => foxit_command exe (fst item) (hd 0 (snd item))) results.
Proof.
  intros Hne Hc Hp Hv.
  assert (Hs : forall pdf_list,
             selection_loop E results pdf_list (choice :: rest) =
             (Input file_prompt :: open_all E results, Returned, rest)).
  { intros pdf_list. cbn [selection_loop]. rewrite Hc. reflexivity. }
  split; [exact Hs|]. split; [now apply popens_open_all|].
  unfold open_pdfs.
  destruct results as [|item items] eqn:Er; [now destruct Hne|].
  rewrite <- Er in *. rewrite Hs. cbn [prepend fst snd].
  split; [reflexivity|]. split; [reflexivity|].
  cbn [app popens]. rewrite popens_app, popens_listing. cbn [app popens].
  now apply popens_open_all.
Qed.

Lemma all_opens_each_file_at_first_page_witness :
  [("C:\docs\a.pdf", [1; 3]); ("C:\docs\c.pdf", [2])] <> [] /\
  lower "all" = "all" /\
  resolve_viewer Demo.env = Some foxit_alternate /\
  snd (fst (open_pdfs Demo.env
              [("C:\docs\a.pdf", [1; 3]); ("C:\docs\c.pdf", [2])] ["all"])) =
    Returned /\
  snd (open_pdfs Demo.env
         [("C:\docs\a.pdf", [1; 3]); ("C:\docs\c.pdf", [2])] ["all"]) = [] /\
  popens (fst (fst (open_pdfs Demo.env
                      [("C:\docs\a.pdf", [1; 3]); ("C:\docs\c.pdf", [2])]
                      ["all"]))) =
    map (fun item => foxit_command foxit_alternate (fst item) (hd 0 (snd item)))
        [("C:\docs\a.pdf", [1; 3]); ("C:\docs\c.pdf", [2])].
Proof.
  split; [discriminate|]. split; [reflexivity|]. split; [reflexivity|].
  apply (@all_opens_each_file_at_first_page Demo.env
           [("C:\docs\a.pdf", [1; 3]); ("C:\docs\c.pdf", [2])] "all" []
           foxit_alternate).
  - discriminate.
  - reflexivity.
  - intros p pages [H | [H | []]]; injection H as _ <-; discriminate.
  - reflexivity.
Defined.

(** The scenario of the two files, evaluated. *)
Example all_scenario :
  popens (fst (fst (open_pdfs Demo.env
                      [("C:\docs\a.pdf", [1; 3]); ("C:\docs\c.pdf", [2])]
                      ["all"]))) =
  [[foxit_alternate; "/A"; "page=1"; "C:\docs\a.pdf"];
   [foxit_alternate; "/A"; "page=2"; "C:\docs\c.pdf"]].
Proof. reflexivity. Qed.

(** C4, as the code has it: after a file with several matched pages is
    chosen, a number that is one of its pages opens the file once at that
    page, and a number that is not gets the line for an invalid page; in
    both cases the next prompt is the one for a file, with no new listing. *)
Theorem page_choice_returns_to_file_prompt (E : Env) (results : dict)
    (pdf_list : list string) (choice page_choice : string)
    (rest : list string) (n page : Z) :
  (lower choice =? "q")%string = false ->
  (lower choice =? "all")%string = false ->
  py_int E choice = Some n ->
  (0 <=? n - 1) && (n - 1 <? len pdf_list) = true ->
  (len (getitem results (nth (Z.to_nat (n - 1)) pdf_list "")) =? 1) = false ->
  (lower page_choice =? "all")%string = false ->
  py_int E page_choice = Some page ->
  selection_loop E results pdf_list (choice :: page_choice :: rest) =
    prepend
      (Input file_prompt
       :: Input (page_prompt
                   (getitem results (nth (Z.to_nat (n - 1)) pdf_list "")))
       :: (if page_in page
                (getitem results (nth (Z.to_nat (n - 1)) pdf_list ""))
           then fst (open_pdf_with_foxit E
                       (nth (Z.to_nat (n - 1)) pdf_list "") page)
           else [Print (invalid_page_line
                          (getitem results
                             (nth (Z.to_nat (n - 1)) pdf_list "")))]))
      (selection_loop E results pdf_list rest) /\
  (exists tail,
     fst (fst (selection_loop E results pdf_list rest)) =
     Input file_prompt :: tail) /\
  (forall exe,
     resolve_viewer E = Some exe ->
     popens (fst (open_pdf_with_foxit E
                    (nth (Z.to_nat (n - 1)) pdf_list "") page)) =
     [foxit_command exe (nth (Z.to_nat (n - 1)) pdf_list "") page]).
Proof.
  intros Hq Ha Hn Hr Hl Hpa Hp. split; [|split].
  - cbn [selection_loop]. rewrite Hq, Ha, Hn. cbv zeta. rewrite Hr, Hl.
    unfold page_choice_step. rewrite Hpa, Hp. reflexivity.
  - apply selection_loop_first.
  - intros exe Hv. now apply popens_open.
Qed.

Lemma page_choice_returns_to_file_prompt_witness :
  (lower "1" =? "q")%string = false /\
  (lower "1" =? "all")%string = false /\
  py_int Demo.env "1" = Some 1 /\
  (0 <=? 1 - 1) && (1 - 1 <? len ["C:\docs\f.pdf"]) = true /\
  (len (getitem [("C:\docs\f.pdf", [2; 5; 9])]
          (nth (Z.to_nat (1 - 1)) ["C:\docs\f.pdf"] "")) =? 1) = false /\
  (lower "7" =? "all")%string = false /\
  py_int Demo.env "7" = Some 7 /\
  selection_loop Demo.env [("C:\docs\f.pdf", [2; 5; 9])] ["C:\docs\f.pdf"]
    ["1"; "7"; "q"] =
  ([Input file_prompt; Input (page_prompt [2; 5; 9]);
    Print (invalid_page_line [2; 5; 9]); Input file_prompt], Returned, []).
Proof.
  split; [reflexivity|]. split; [reflexivity|]. split; [reflexivity|].
  split; [reflexivity|]. split; [reflexivity|]. split; [reflexivity|].
  split; [reflexivity|].
  exact (proj1 (@page_choice_returns_to_file_prompt Demo.env
                  [("C:\docs\f.pdf", [2; 5; 9])] ["C:\docs\f.pdf"] "1" "7"
                  ["q"] 1 7 eq_refl eq_refl eq_refl eq_refl eq_refl eq_refl
                  eq_refl)).
Defined.

(** C4, as it is written, fails: with the pages [[2, 5, 9]], the answer [7]
    to the page prompt is followed by the prompt for a file and not by a new
    prompt for a page, so that a following [5] is read as the number of a
    file and nothing is opened. *)
Lemma invalid_page_does_not_reprompt_for_page :
  prompt_after (invalid_page_line [2; 5; 9])
    (fst (fst (open_pdfs Demo.env [("C:\docs\f.pdf", [2; 5; 9])]
                 ["1"; "7"; "5"]))) <>
    Some (page_prompt [2; 5; 9]) /\
  prompt_after (invalid_page_line [2; 5; 9])
    (fst (fst (open_pdfs Demo.env [("C:\docs\f.pdf", [2; 5; 9])]
                 ["1"; "7"; "5"]))) =
    Some file_prompt /\
  popens (fst (fst (open_pdfs Demo.env [("C:\docs\f.pdf", [2; 5; 9])]
                      ["1"; "7"; "5"]))) = [].
Proof.
  split; [|split].
  - vm_compute. discriminate.
  - vm_compute. reflexivity.
  - vm_compute. reflexivity.
Qed.

(** C9: an open action takes the first of the two installation paths that
    exists.  With none, it prints that the viewer is not found, starts
    nothing, and the menu asks again; with one, it starts
    [exe /A page=N pdf_path] without waiting, and the menu asks again. *)
Theorem open_action_resolves_viewer (E : Env) (results : dict)
    (pdf_list : list string) (choice : string) (rest : list string) (n : Z) :
  (lower choice =? "q")%string = false ->
  (lower choice =? "all")%string = false ->
  py_int E choice = Some n ->
  (0 <=? n - 1) && (n - 1 <? len pdf_list) = true ->
  (len (getitem results (nth (Z.to_nat (n - 1)) pdf_list "")) =? 1) = true ->
  let pdf_path := nth (Z.to_nat (n - 1)) pdf_list "" in
  let page := hd 0 (getitem results pdf_path) in
  match resolve_viewer E with
  | None =>
      path_exists E foxit_default = false /\
      path_exists E foxit_alternate = false /\
      open_pdf_with_foxit E pdf_path page =
        ([Print foxit_not_found_line], false) /\
      selection_loop E results pdf_list (choice :: rest) =
        prepend [Input file_prompt; Print foxit_not_found_line]
          (selection_loop E results pdf_list rest)
  | Some exe =>
      path_exists E exe = true /\
      (exe = foxit_default \/
       exe = foxit_alternate /\ path_exists E foxit_default = false) /\
      popens (fst (open_pdf_with_foxit E pdf_path page)) =
        [[exe; "/A"; ("page=" ++ str_of_Z page)%string; pdf_path]] /\
      selection_loop E results pdf_list (choice :: rest) =
        prepend (Input file_prompt :: fst (launch E exe pdf_path page))
          (selection_loop E results pdf_list rest)
  end.
Proof.
  intros Hq Ha Hn Hr Hl pdf_path page.
  assert (Hs : selection_loop E results pdf_list (choice :: rest) =
               prepend
                 (Input file_prompt :: fst (open_pdf_with_foxit E pdf_path page))
                 (selection_loop E results pdf_list rest)).
  { cbn [selection_loop]. rewrite Hq, Ha, Hn. cbv zeta. rewrite Hr, Hl.
    reflexivity. }
  rewrite Hs, open_pdf_with_foxit_resolved.
  destruct (resolve_viewer E) as [exe|] eqn:Hv.
  - destruct (resolve_viewer_first E Hv) as [He Hf].
    split; [exact He|]. split; [exact Hf|]. split; [|reflexivity].
    apply popens_launch.
  - unfold resolve_viewer, viewer_candidates in Hv. cbn [find] in Hv.
    destruct (path_exists E foxit_default); [discriminate|].
    destruct (path_exists E foxit_alternate); [discriminate|].
    repeat split.
Qed.

Lemma open_action_resolves_viewer_witness :
  (lower "1" =? "q")%string = false /\
  (lower "1" =? "all")%string = false /\
  py_int Demo.env_no_viewer "1" = Some 1 /\
  (0 <=? 1 - 1) && (1 - 1 <? len ["C:\docs\c.pdf"]) = true /\
  (len (getitem [("C:\docs\c.pdf", [2])]
          (nth (Z.to_nat (1 - 1)) ["C:\docs\c.pdf"] "")) =? 1) = true /\
  open_pdf_with_foxit Demo.env_no_viewer "C:\docs\c.pdf" 2 =
    ([Print foxit_not_found_line], false) /\
  selection_loop Demo.env_no_viewer [("C:\docs\c.pdf", [2])] ["C:\docs\c.pdf"]
    ["1"; "q"] =
  ([Input file_prompt; Print foxit_not_found_line; Input file_prompt],
   Returned, []).
Proof.
  split; [reflexivity|]. split; [reflexivity|]. split; [reflexivity|].
  split; [reflexivity|]. split; [reflexivity|].
  pose proof (@open_action_resolves_viewer Demo.env_no_viewer
                [("C:\docs\c.pdf", [2])] ["C:\docs\c.pdf"] "1" ["q"] 1
                eq_refl eq_refl eq_refl eq_refl eq_refl) as H.
  exact (conj (proj1 (proj2 (proj2 H))) (proj2 (proj2 (proj2 H)))).
Defined.

(** * Further properties *)

(** ** The menu, case by case *)

Section Menu.

Variable E : Env.
Variable results : dict.
Variable pdf_list : list string.

(** Induction over the iterations of the [while] loop: one hypothesis for
    each way through its body. *)
Lemma selection_loop_cases
    (P : list string -> list event * outcome * list string -> Prop) :
  P [] ([Input file_prompt], EOFError, []) ->
  (forall choice rest,
     (lower choice =? "q")%string = true ->
     P (choice :: rest) ([Input file_prompt], Returned, rest)) ->
  (forall choice rest,
     (lower choice =? "q")%string = false ->
     (lower choice =? "all")%string = true ->
     P (choice :: rest)
       (Input file_prompt :: open_all E results, Returned, rest)) ->
  (forall choice rest,
     bad_choice E pdf_list choice = true ->
     P rest (selection_loop E results pdf_list rest) ->
     P (choice :: rest)
       (prepend [Input file_prompt; Print (bad_choice_line E choice)]
          (selection_loop E results pdf_list rest))) ->
  (forall choice rest n,
     (lower choice =? "q")%string = false ->
     (lower choice =? "all")%string = false ->
     py_int E choice = Some n ->
     (0 <=? n - 1) && (n - 1 <? len pdf_list) = true ->
     (len (getitem results (nth (Z.to_nat (n - 1)) pdf_list "")) =? 1) = true ->
     P rest (selection_loop E results pdf_list rest) ->
     P (choice :: rest)
       (prepend
          (Input file_prompt
           :: fst (open_pdf_with_foxit E (nth (Z.to_nat (n - 1)) pdf_list "")
                     (hd 0 (getitem results
                              (nth (Z.to_nat (n - 1)) pdf_list "")))))
          (selection_loop E results pdf_list rest))) ->
  (forall choice n,
     (lower choice =? "q")%string = false ->
     (lower choice =? "all")%string = false ->
     py_int E choice = Some n ->
     (0 <=? n - 1) && (n - 1 <? len pdf_list) = true ->
     (len (getitem results (nth (Z.to_nat (n - 1)) pdf_list "")) =? 1) = false ->
     P [choice]
       ([Input file_prompt;
         Input (page_prompt
                  (getitem results (nth (Z.to_nat (n - 1)) pdf_list "")))],
        EOFError, [])) ->
  (forall choice page_choice rest n,
     (lower choice =? "q")%string = false ->
     (lower choice =? "all")%string = false ->
     py_int E choice = Some n ->
     (0 <=? n - 1) && (n - 1 <? len pdf_list) = true ->
     (len (getitem results (nth (Z.to_nat (n - 1)) pdf_list "")) =? 1) = false ->
     P rest (selection_loop E results pdf_list rest) ->
     P (choice :: page_choice :: rest)
       (prepend
          (Input file_prompt
           :: Input (page_prompt
                       (getitem results (nth (Z.to_nat (n - 1)) pdf_list "")))
           :: page_choice_step E (nth (Z.to_nat (n - 1)) pdf_list "")
                (getitem results (nth (Z.to_nat (n - 1)) pdf_list ""))
                page_choice)
          (selection_loop E results pdf_list rest))) ->
  forall inputs, P inputs (selection_loop E results pdf_list inputs).
Proof.
  intros Heof Hq Hall Hbad Hone Hpeof Hpage inputs.
  assert (H : forall k inputs, (List.length inputs <= k)%nat ->
                               P inputs (selection_loop E results pdf_list inputs)).
  { clear inputs. induction k as [|k IH]; intros inputs Hk.
    - destruct inputs; [exact Heof | simpl in Hk; lia].
    - destruct inputs as [|choice rest]; [exact Heof|].
      simpl in Hk. cbn [selection_loop].
      destruct (lower choice =? "q")%string eqn:Eq; [now apply Hq|].
      destruct (lower choice =? "all")%string eqn:Ea; [now apply Hall|].
      destruct (py_int E choice) as [n|] eqn:En.
      + cbv zeta.
        destruct ((0 <=? n - 1) && (n - 1 <? len pdf_list)) eqn:Er.
        * destruct (len (getitem results (nth (Z.to_nat (n - 1)) pdf_list ""))
                      =? 1) eqn:El.
          -- apply Hone; auto. apply IH. lia.
          -- destruct rest as [|page_choice rest'].
             ++ now apply Hpeof.
             ++ apply Hpage; auto. apply IH. simpl in Hk. lia.
        * replace invalid_choice_line with (bad_choice_line E choice)
            by (unfold bad_choice_line; now rewrite En).
          apply Hbad; [|apply IH; lia].
          unfold bad_choice. now rewrite Eq, Ea, En, Er.
      + replace invalid_input_line with (bad_choice_line E choice)
          by (unfold bad_choice_line; now rewrite En).
        apply Hbad; [|apply IH; lia].
        unfold bad_choice. now rewrite Eq, Ea, En. }
  apply (H (List.length inputs)). lia.
Qed.

End Menu.

(** ** Events of a trace *)

Lemma prompts_app (a b : list event) : prompts (a ++ b) = prompts a ++ prompts b.
Proof.
  induction a as [|[line | prompt | command] a IH]; simpl;
    [reflexivity | exact IH | now rewrite IH | exact IH].
Qed.

Lemma prepend_fst (evs : list event) (r : list event * outcome * list string) :
  fst (fst (prepend evs r)) = evs ++ fst (fst r).
Proof. now destruct r as [[out o] left]. Qed.

Lemma prepend_outcome (evs : list event)
    (r : list event * outcome * list string) :
  snd (fst (prepend evs r)) = snd (fst r).
Proof. now destruct r as [[out o] left]. Qed.

Lemma prepend_rest (evs : list event) (r : list event * outcome * list string) :
  snd (prepend evs r) = snd r.
Proof. now destruct r as [[out o] left]. Qed.

Lemma prepend_prepend (a b : list event)
    (r : list event * outcome * list string) :
  prepend a (prepend b r) = prepend (a ++ b) r.
Proof. destruct r as [[out o] left]. simpl. now rewrite app_assoc. Qed.

(** What one open action passes to [Popen]: nothing, or one command for the
    file and the page asked for. *)
Lemma popens_open_cases (E : Env) (pdf_path : string) (page_number : Z) :
  popens (fst (open_pdf_with_foxit E pdf_path page_number)) = [] \/
  exists exe,
    In exe viewer_candidates /\
    popens (fst (open_pdf_with_foxit E pdf_path page_number)) =
    [foxit_command exe pdf_path page_number].
Proof.
  rewrite open_pdf_with_foxit_resolved.
  destruct (resolve_viewer E) as [exe|] eqn:Hv; [right | now left].
  exists exe. split; [|apply popens_launch].
  destruct (resolve_viewer_first E Hv) as [_ [-> | [-> _]]]; simpl; auto.
Qed.

Lemma prompts_open (E : Env) (pdf_path : string) (page_number : Z) :
  prompts (fst (open_pdf_with_foxit E pdf_path page_number)) = [].
Proof.
  rewrite open_pdf_with_foxit_resolved.
  destruct (resolve_viewer E); [|reflexivity].
  unfold launch. now destruct (popen E _).
Qed.

Lemma prompts_open_all (E : Env) (items : dict) : prompts (open_all E items) = [].
Proof.
  induction items as [|[p [|page pages]] items IH]; cbn [open_all]; auto.
  now rewrite prompts_app, prompts_open, IH.
Qed.

Lemma prompts_open_each (E : Env) (pdf_path : string) (pages : list Z) :
  prompts (open_each E pdf_path pages) = [].
Proof.
  induction pages as [|page pages IH]; cbn [open_each]; auto.
  now rewrite prompts_app, prompts_open, IH.
Qed.

Lemma prompts_page_choice_step (E : Env) (pdf_path : string) (pages : list Z)
    (page_choice : string) :
  prompts (page_choice_step E pdf_path pages page_choice) = [].
Proof.
  unfold page_choice_step.
  destruct (lower page_choice =? "all")%string; [apply prompts_open_each|].
  destruct (py_int E page_choice) as [page|]; [|reflexivity].
  destruct (page_in page pages); [apply prompts_open | reflexivity].
Qed.

Lemma prompts_listing (E : Env) (results : dict) (pdf_list : list string) :
  forall i, prompts (listing E results i pdf_list) = [].
Proof. induction pdf_list as [|p l IH]; intros i; simpl; auto. Qed.

(** ** The opener launches nothing but what the results list *)

Section Launches.

Variable E : Env.
Variable results : dict.

Lemma getitem_In (p : string) :
  getitem results p <> [] -> In (p, getitem results p) results.
Proof.
  unfold getitem. induction results as [|[k v] d IH]; simpl.
  - intros H. now destruct H.
  - destruct (k =? p)%string eqn:Ek.
    + apply String.eqb_eq in Ek. subst k. now left.
    + intros H. right. now apply IH.
Qed.

Lemma page_in_In (page : Z) (pages : list Z) :
  page_in page pages = true <-> In page pages.
Proof.
  unfold page_in. rewrite existsb_exists. split.
  - intros (x & Hx & He). apply Z.eqb_eq in He. now subst.
  - intros H. exists page. split; [exact H | apply Z.eqb_refl].
Qed.

Lemma from_results_open (p : string) (pages : list Z) (page : Z) :
  In (p, pages) results -> In page pages ->
  Forall (from_results results)
         (popens (fst (open_pdf_with_foxit E p page))).
Proof.
  intros Hp Hpage.
  destruct (popens_open_cases E p page) as [-> | (exe & He & ->)];
    constructor; [|constructor].
  now exists exe, p, pages, page.
Qed.

Lemma from_results_open_each (p : string) (pages : list Z) :
  In (p, pages) results ->
  forall some, incl some pages ->
               Forall (from_results results) (popens (open_each E p some)).
Proof.
  intros Hp. induction some as [|page some IH]; intros Hi; cbn [open_each].
  - constructor.
  - rewrite popens_app. apply Forall_app. split.
    + apply from_results_open with (pages := pages); [exact Hp|].
      apply Hi. now left.
    + apply IH. intros x Hx. apply Hi. now right.
Qed.

Lemma from_results_open_all (items : dict) :
  incl items results ->
  Forall (from_results results) (popens (open_all E items)).
Proof.
  induction items as [|[p [|page pages]] items IH]; intros Hi;
    cbn [open_all].
  - constructor.
  - apply IH. intros x Hx. apply Hi. now right.
  - rewrite popens_app. apply Forall_app. split.
    + apply from_results_open with (pages := page :: pages).
      * apply Hi. now left.
      * now left.
    + apply IH. intros x Hx. apply Hi. now right.
Qed.

Lemma from_results_page_choice_step (p page_choice : string) :
  Forall (from_results results)
         (popens (page_choice_step E p (getitem results p) page_choice)).
Proof.
  destruct (getitem results p) as [|page0 pages0] eqn:Eg.
  - unfold page_choice_step.
    destruct (lower page_choice =? "all")%string; [constructor|].
    destruct (py_int E page_choice) as [page|]; constructor.
  - assert (Hin : In (p, page0 :: pages0) results).
    { rewrite <- Eg. apply getitem_In. rewrite Eg. discriminate. }
    unfold page_choice_step.
    destruct (lower page_choice =? "all")%string.
    + apply from_results_open_each with (pages := page0 :: pages0);
        [exact Hin | apply incl_refl].
    + destruct (py_int E page_choice) as [page|]; [|constructor].
      destruct (page_in page (page0 :: pages0)) eqn:Ei; [|constructor].
      apply from_results_open with (pages := page0 :: pages0);
        [exact Hin | now apply page_in_In].
Qed.

Lemma from_results_loop (pdf_list inputs : list string) :
  Forall (from_results results)
         (popens (fst (fst (selection_loop E results pdf_list inputs)))).
Proof.
  apply (selection_loop_cases E results pdf_list
           (fun _ r => Forall (from_results results) (popens (fst (fst r)))));
    clear inputs.
  - constructor.
  - intros. constructor.
  - intros. cbn [fst popens]. apply from_results_open_all, incl_refl.
  - intros choice rest _ IH. rewrite prepend_fst. exact IH.
  - intros choice rest n _ _ _ _ Hl IH. rewrite prepend_fst.
    cbn [app popens]. rewrite popens_app. apply Forall_app. split; [|exact IH].
    set (p := nth (Z.to_nat (n - 1)) pdf_list "") in *.
    destruct (getitem results p) as [|page0 pages0] eqn:Eg; [discriminate|].
    apply from_results_open with (pages := page0 :: pages0).
    + rewrite <- Eg. apply getitem_In. rewrite Eg. discriminate.
    + now left.
  - intros. constructor.
  - intros choice page_choice rest n _ _ _ _ _ IH. rewrite prepend_fst.
    cbn [app popens]. rewrite popens_app. apply Forall_app.
    split; [apply from_results_page_choice_step | exact IH].
Qed.

End Launches.

(** X1: whatever is typed, every command the opener hands to [Popen] is one
    of the two viewers with [/A], [page=N] and a path, where the path is a
    key of the results and [N] one of the pages listed for it. *)
Theorem opener_launches_only_listed_pages (E : Env) (results : dict)
    (inputs : list string) :
  Forall (from_results results)
         (popens (fst (fst (open_pdfs E results inputs)))).
Proof.
  unfold open_pdfs. destruct results as [|item items] eqn:Er; [constructor|].
  rewrite <- Er. rewrite prepend_fst. cbn [app popens].
  rewrite popens_app, popens_listing. apply from_results_loop.
Qed.

(** ** The menu without a viewer *)

Section NoViewer.

Variable E : Env.
Hypothesis no_viewer : resolve_viewer E = None.

Lemma popens_open_none (pdf_path : string) (page_number : Z) :
  popens (fst (open_pdf_with_foxit E pdf_path page_number)) = [].
Proof. now rewrite open_pdf_with_foxit_resolved, no_viewer. Qed.

Lemma popens_open_all_none (items : dict) : popens (open_all E items) = [].
Proof.
  induction items as [|[p [|page pages]] items IH]; cbn [open_all]; auto.
  now rewrite popens_app, popens_open_none, IH.
Qed.

Lemma popens_open_each_none (pdf_path : string) (pages : list Z) :
  popens (open_each E pdf_path pages) = [].
Proof.
  induction pages as [|page pages IH]; cbn [open_each]; auto.
  now rewrite popens_app, popens_open_none, IH.
Qed.

Lemma popens_page_choice_step_none (pdf_path : string) (pages : list Z)
    (page_choice : string) :
  popens (page_choice_step E pdf_path pages page_choice) = [].
Proof.
  unfold page_choice_step.
  destruct (lower page_choice =? "all")%string; [apply popens_open_each_none|].
  destruct (py_int E page_choice) as [page|]; [|reflexivity].
  destruct (page_in page pages); [apply popens_open_none | reflexivity].
Qed.

Lemma popens_loop_none (results : dict) (pdf_list inputs : list string) :
  popens (fst (fst (selection_loop E results pdf_list inputs))) = [].
Proof.
  apply (selection_loop_cases E results pdf_list
           (fun _ r => popens (fst (fst r)) = [])); clear inputs.
  - reflexivity.
  - reflexivity.
  - intros. cbn [fst popens]. apply popens_open_all_none.
  - intros choice rest _ IH. rewrite prepend_fst. exact IH.
  - intros choice rest n _ _ _ _ _ IH. rewrite prepend_fst.
    cbn [app popens]. now rewrite popens_app, popens_open_none, IH.
  - reflexivity.
  - intros choice page_choice rest n _ _ _ _ _ IH. rewrite prepend_fst.
    cbn [app popens]. now rewrite popens_app, popens_page_choice_step_none, IH.
Qed.

End NoViewer.

(** X2: when Foxit Reader is at neither of the two paths, the opener never
    calls [Popen], whatever the results and whatever is typed. *)
Theorem no_viewer_starts_nothing (E : Env) (results : dict)
    (inputs : list string) :
  resolve_viewer E = None ->
  popens (fst (fst (open_pdfs E results inputs))) = [].
Proof.
  intros Hv. unfold open_pdfs. destruct results as [|item items] eqn:Er;
    [reflexivity|].
  rewrite <- Er. rewrite prepend_fst. cbn [app popens].
  rewrite popens_app, popens_listing. now apply popens_loop_none.
Qed.

Lemma no_viewer_starts_nothing_witness :
  resolve_viewer Demo.env_no_viewer = None /\
  popens (fst (fst (open_pdfs Demo.env_no_viewer
                      [("C:\docs\a.pdf", [1; 3]); ("C:\docs\c.pdf", [2])]
                      ["2"; "1"; "all"; "1"; "3"; "all"]))) = [].
Proof.
  split; [reflexivity|].
  apply (@no_viewer_starts_nothing Demo.env_no_viewer
           [("C:\docs\a.pdf", [1; 3]); ("C:\docs\c.pdf", [2])]
           ["2"; "1"; "all"; "1"; "3"; "all"]).
  reflexivity.
Defined.

(** ** The course of the menu does not depend on the viewer *)

Section Course.

Variables E E' : Env.
Hypothesis same_int : int_max_str_digits E = int_max_str_digits E'.

Variable results : dict.
Variable pdf_list : list string.

Lemma py_int_same (s : string) : py_int E' s = py_int E s.
Proof. unfold py_int. now rewrite same_int. Qed.

Lemma course_loop (inputs : list string) :
  prompts (fst (fst (selection_loop E results pdf_list inputs))) =
    prompts (fst (fst (selection_loop E' results pdf_list inputs))) /\
  snd (fst (selection_loop E results pdf_list inputs)) =
    snd (fst (selection_loop E' results pdf_list inputs)) /\
  snd (selection_loop E results pdf_list inputs) =
    snd (selection_loop E' results pdf_list inputs).
Proof.
  apply (selection_loop_cases E results pdf_list
           (fun inputs r =>
              prompts (fst (fst r)) =
                prompts (fst (fst (selection_loop E' results pdf_list inputs))) /\
              snd (fst r) =
                snd (fst (selection_loop E' results pdf_list inputs)) /\
              snd r = snd (selection_loop E' results pdf_list inputs)));
    clear inputs.
  - repeat split.
  - intros choice rest Hq. cbn [selection_loop]. rewrite Hq. repeat split.
  - intros choice rest Hq Ha. cbn [selection_loop]. rewrite Hq, Ha.
    cbn [fst snd prompts]. now rewrite !prompts_open_all.
  - intros choice rest Hb (IH1 & IH2 & IH3).
    unfold bad_choice in Hb.
    destruct (lower choice =? "q")%string eqn:Hq; [discriminate|].
    destruct (lower choice =? "all")%string eqn:Ha; [discriminate|].
    cbn [selection_loop]. rewrite Hq, Ha, py_int_same.
    destruct (py_int E choice) as [n|] eqn:Hn.
    + cbv zeta. cbn [negb andb] in Hb.
      apply negb_true_iff in Hb. rewrite Hb.
      rewrite !prepend_fst, !prepend_outcome, !prepend_rest.
      cbn [app prompts]. now rewrite IH1.
    + rewrite !prepend_fst, !prepend_outcome, !prepend_rest.
      cbn [app prompts]. now rewrite IH1.
  - intros choice rest n Hq Ha Hn Hr Hl (IH1 & IH2 & IH3).
    cbn [selection_loop]. rewrite Hq, Ha, py_int_same, Hn. cbv zeta.
    rewrite Hr, Hl.
    rewrite !prepend_fst, !prepend_outcome, !prepend_rest.
    cbn [app prompts]. now rewrite !prompts_app, !prompts_open, IH1.
  - intros choice n Hq Ha Hn Hr Hl.
    cbn [selection_loop]. rewrite Hq, Ha, py_int_same, Hn. cbv zeta.
    rewrite Hr, Hl. repeat split.
  - intros choice page_choice rest n Hq Ha Hn Hr Hl (IH1 & IH2 & IH3).
    cbn [selection_loop]. rewrite Hq, Ha, py_int_same, Hn. cbv zeta.
    rewrite Hr, Hl.
    rewrite !prepend_fst, !prepend_outcome, !prepend_rest.
    cbn [app prompts].
    now rewrite !prompts_app, !prompts_page_choice_step, IH1.
Qed.

End Course.

(** X3: two runs of the opener on the same results and the same input, in
    environments that read integers alike, ask the same prompts in the same
    order, end the same way and leave the same lines unread: whether a
    viewer is found, and whether it starts, changes nothing of what the menu
    asks. *)
Theorem menu_course_independent_of_viewer (E E' : Env) (results : dict)
    (inputs : list string) :
  int_max_str_digits E = int_max_str_digits E' ->
  prompts (fst (fst (open_pdfs E results inputs))) =
    prompts (fst (fst (open_pdfs E' results inputs))) /\
  snd (fst (open_pdfs E results inputs)) =
    snd (fst (open_pdfs E' results inputs)) /\
  snd (open_pdfs E results inputs) = snd (open_pdfs E' results inputs).
Proof.
  intros Hi. unfold open_pdfs.
  destruct results as [|item items] eqn:Er; [repeat split|].
  rewrite <- Er.
  destruct (@course_loop E E' Hi results (keys results) inputs)
    as (H1 & H2 & H3).
  rewrite !prepend_fst, !prepend_outcome, !prepend_rest.
  cbn [app prompts]. rewrite !prompts_app, !prompts_listing.
  cbn [app]. now rewrite H1, H2, H3.
Qed.

Lemma menu_course_independent_of_viewer_witness :
  int_max_str_digits Demo.env = int_max_str_digits Demo.env_no_viewer /\
  prompts (fst (fst (open_pdfs Demo.env
                       [("C:\docs\a.pdf", [1; 3])] ["1"; "3"; "x"; "q"]))) =
    prompts (fst (fst (open_pdfs Demo.env_no_viewer
                         [("C:\docs\a.pdf", [1; 3])] ["1"; "3"; "x"; "q"]))) /\
  snd (fst (open_pdfs Demo.env
              [("C:\docs\a.pdf", [1; 3])] ["1"; "3"; "x"; "q"])) =
    snd (fst (open_pdfs Demo.env_no_viewer
                [("C:\docs\a.pdf", [1; 3])] ["1"; "3"; "x"; "q"])) /\
  snd (open_pdfs Demo.env [("C:\docs\a.pdf", [1; 3])] ["1"; "3"; "x"; "q"]) =
    snd (open_pdfs Demo.env_no_viewer
           [("C:\docs\a.pdf", [1; 3])] ["1"; "3"; "x"; "q"]).
Proof.
  split; [reflexivity|].
  apply (@menu_course_independent_of_viewer Demo.env Demo.env_no_viewer
           [("C:\docs\a.pdf", [1; 3])] ["1"; "3"; "x"; "q"]).
  reflexivity.
Defined.

(** ** How the loop ends *)

(** X4: the loop returns only on [q] or [all].  On an input none of whose
    lines is one of the two (in any case), it reads every line and ends with
    the [EOFError] of [input]. *)
Theorem loop_returns_only_on_quit_or_all (E : Env) (results : dict)
    (pdf_list inputs : list string) :
  forallb (fun s => negb (lower s =? "q")%string &&
                    negb (lower s =? "all")%string) inputs = true ->
  snd (fst (selection_loop E results pdf_list inputs)) = EOFError /\
  snd (selection_loop E results pdf_list inputs) = [].
Proof.
  apply (selection_loop_cases E results pdf_list
           (fun inputs r =>
              forallb (fun s => negb (lower s =? "q")%string &&
                                negb (lower s =? "all")%string) inputs = true ->
              snd (fst r) = EOFError /\ snd r = [])); clear inputs.
  - auto.
  - intros choice rest Hq H. cbn [forallb] in H. rewrite Hq in H. discriminate.
  - intros choice rest Hq Ha H. cbn [forallb] in H. rewrite Hq, Ha in H.
    discriminate.
  - intros choice rest _ IH H. cbn [forallb] in H.
    apply andb_true_iff in H as [_ H].
    rewrite prepend_outcome, prepend_rest. auto.
  - intros choice rest n _ _ _ _ _ IH H. cbn [forallb] in H.
    apply andb_true_iff in H as [_ H].
    rewrite prepend_outcome, prepend_rest. auto.
  - auto.
  - intros choice page_choice rest n _ _ _ _ _ IH H. cbn [forallb] in H.
    apply andb_true_iff in H as [_ H]. apply andb_true_iff in H as [_ H].
    rewrite prepend_outcome, prepend_rest. auto.
Qed.

Lemma loop_returns_only_on_quit_or_all_witness :
  forallb (fun s => negb (lower s =? "q")%string &&
                    negb (lower s =? "all")%string) ["1"; "7"; "5"; "x"] = true /\
  snd (fst (selection_loop Demo.env [("C:\docs\f.pdf", [2; 5; 9])]
              ["C:\docs\f.pdf"] ["1"; "7"; "5"; "x"])) = EOFError /\
  snd (selection_loop Demo.env [("C:\docs\f.pdf", [2; 5; 9])]
         ["C:\docs\f.pdf"] ["1"; "7"; "5"; "x"]) = [].
Proof.
  split; [reflexivity|].
  apply (@loop_returns_only_on_quit_or_all Demo.env
           [("C:\docs\f.pdf", [2; 5; 9])] ["C:\docs\f.pdf"]
           ["1"; "7"; "5"; "x"]).
  reflexivity.
Defined.

(** ** [all] at the page prompt *)

Lemma popens_open_each (E : Env) (exe pdf_path : string) (pages : list Z) :
  resolve_viewer E = Some exe ->
  popens (open_each E pdf_path pages) = map (foxit_command exe pdf_path) pages.
Proof.
  intros Hv. induction pages as [|page pages IH]; cbn [open_each map].
  - reflexivity.
  - now rewrite popens_app, (@popens_open E exe pdf_path page Hv), IH.
Qed.

(** X5: after a file with several matched pages is chosen, [all] (in any
    case) at the page prompt opens that file once for each of its pages, in
    the order of the list, and the menu asks for a file again. *)
Theorem page_all_opens_every_page (E : Env) (results : dict)
    (pdf_list : list string) (choice page_choice : string)
    (rest : list string) (n : Z) (exe : string) :
  (lower choice =? "q")%string = false ->
  (lower choice =? "all")%string = false ->
  py_int E choice = Some n ->
  (0 <=? n - 1) && (n - 1 <? len pdf_list) = true ->
  (len (getitem results (nth (Z.to_nat (n - 1)) pdf_list "")) =? 1) = false ->
  (lower page_choice =? "all")%string = true ->
  resolve_viewer E = Some exe ->
  selection_loop E results pdf_list (choice :: page_choice :: rest) =
    prepend
      (Input file_prompt
       :: Input (page_prompt
                   (getitem results (nth (Z.to_nat (n - 1)) pdf_list "")))
       :: open_each E (nth (Z.to_nat (n - 1)) pdf_list "")
            (getitem results (nth (Z.to_nat (n - 1)) pdf_list "")))
      (selection_loop E results pdf_list rest) /\
  popens (open_each E (nth (Z.to_nat (n - 1)) pdf_list "")
            (getitem results (nth (Z.to_nat (n - 1)) pdf_list ""))) =
    map (foxit_command exe (nth (Z.to_nat (n - 1)) pdf_list ""))
        (getitem results (nth (Z.to_nat (n - 1)) pdf_list "")).
Proof.
  intros Hq Ha Hn Hr Hl Hpa Hv. split; [|now apply popens_open_each].
  cbn [selection_loop]. rewrite Hq, Ha, Hn. cbv zeta. rewrite Hr, Hl.
  unfold page_choice_step. now rewrite Hpa.
Qed.

Lemma page_all_opens_every_page_witness :
  (lower "1" =? "q")%string = false /\
  (lower "1" =? "all")%string = false /\
  py_int Demo.env "1" = Some 1 /\
  (0 <=? 1 - 1) && (1 - 1 <? len ["C:\docs\f.pdf"]) = true /\
  (len (getitem [("C:\docs\f.pdf", [2; 5; 9])]
          (nth (Z.to_nat (1 - 1)) ["C:\docs\f.pdf"] "")) =? 1) = false /\
  (lower "ALL" =? "all")%string = true /\
  resolve_viewer Demo.env = Some foxit_alternate /\
  popens (open_each Demo.env "C:\docs\f.pdf" [2; 5; 9]) =
    [[foxit_alternate; "/A"; "page=2"; "C:\docs\f.pdf"];
     [foxit_alternate; "/A"; "page=5"; "C:\docs\f.pdf"];
     [foxit_alternate; "/A"; "page=9"; "C:\docs\f.pdf"]].
Proof.
  split; [reflexivity|]. split; [reflexivity|]. split; [reflexivity|].
  split; [reflexivity|]. split; [reflexivity|]. split; [reflexivity|].
  split; [reflexivity|].
  exact (proj2 (@page_all_opens_every_page Demo.env
                  [("C:\docs\f.pdf", [2; 5; 9])] ["C:\docs\f.pdf"] "1" "ALL"
                  ["q"] 1 foxit_alternate eq_refl eq_refl eq_refl eq_refl
                  eq_refl eq_refl eq_refl)).
Defined.

(** ** Answers that select nothing *)

Lemma bad_choice_step (E : Env) (results : dict) (pdf_list : list string)
    (choice : string) (rest : list string) :
  bad_choice E pdf_list choice = true ->
  selection_loop E results pdf_list (choice :: rest) =
  prepend [Input file_prompt; Print (bad_choice_line E choice)]
    (selection_loop E results pdf_list rest).
Proof.
  unfold bad_choice, bad_choice_line. intros Hb.
  destruct (lower choice =? "q")%string eqn:Hq; [discriminate|].
  destruct (lower choice =? "all")%string eqn:Ha; [discriminate|].
  cbn [selection_loop]. rewrite Hq, Ha.
  destruct (py_int E choice) as [n|]; [|reflexivity].
  cbv zeta. cbn [negb andb] in Hb. apply negb_true_iff in Hb.
  now rewrite Hb.
Qed.

(** X6: answers to the file prompt that are neither [q], nor [all], nor the
    number of a listed file cost one prompt and one line each (the line for
    a non-number or the line for a number out of range), start nothing, and
    leave the menu where it was: what follows is handled as if they had not
    been typed. *)
Theorem bad_choices_are_skipped (E : Env) (results : dict)
    (pdf_list bad rest : list string) :
  forallb (bad_choice E pdf_list) bad = true ->
  selection_loop E results pdf_list (bad ++ rest) =
  prepend
    (flat_map (fun s => [Input file_prompt; Print (bad_choice_line E s)]) bad)
    (selection_loop E results pdf_list rest).
Proof.
  induction bad as [|choice bad IH]; intros Hb.
  - cbn [app flat_map]. now destruct (selection_loop E results pdf_list rest)
      as [[out o] left].
  - cbn [forallb] in Hb. apply andb_true_iff in Hb as [Hc Hb].
    cbn [app flat_map]. rewrite (@bad_choice_step E results pdf_list choice (bad ++ rest) Hc), (IH Hb).
    apply prepend_prepend.
Qed.

Lemma bad_choices_are_skipped_witness :
  forallb (bad_choice Demo.env ["C:\docs\a.pdf"]) ["abc"; "0"; "2"; ""; "-1"] =
    true /\
  selection_loop Demo.env [("C:\docs\a.pdf", [1])] ["C:\docs\a.pdf"]
    (["abc"; "0"; "2"; ""; "-1"] ++ ["q"]) =
  prepend
    (flat_map (fun s => [Input file_prompt;
                         Print (bad_choice_line Demo.env s)])
       ["abc"; "0"; "2"; ""; "-1"])
    (selection_loop Demo.env [("C:\docs\a.pdf", [1])] ["C:\docs\a.pdf"] ["q"]).
Proof.
  split; [reflexivity|].
  apply (@bad_choices_are_skipped Demo.env [("C:\docs\a.pdf", [1])]
           ["C:\docs\a.pdf"] ["abc"; "0"; "2"; ""; "-1"] ["q"]).
  reflexivity.
Defined.

(** ** Patterns without special characters *)

Lemma codes_app (s t : string) :
  codes (s ++ t)%string = codes s ++ codes t.
Proof.
  unfold codes. induction s as [|c s IH]; simpl; [reflexivity | now rewrite IH].
Qed.

Lemma codes_split (s : string) :
  forall a b,
    codes s = a ++ b ->
    exists s1 s2, s = (s1 ++ s2)%string /\ codes s1 = a /\ codes s2 = b.
Proof.
  intros a. revert s. induction a as [|x a IH]; intros s b H.
  - now exists "", s.
  - destruct s as [|c s]; [discriminate|].
    unfold codes in H. simpl in H. injection H as Hx Hs.
    destruct (IH s b Hs) as (s1 & s2 & -> & <- & <-).
    exists (String c s1), s2. unfold codes. simpl. now rewrite Hx.
Qed.

(** Within Latin-1 the letters [re.IGNORECASE] identifies are those with
    the same lower case. *)
Lemma lit_match_latin1 (c a : ascii) :
  lit_match c (N_of_ascii a) = Ascii.eqb (lower_char a) (lower_char c).
Proof.
  unfold lit_match.
  assert ((N_of_ascii a <? 256)%N = true) as ->
    by (apply N.ltb_lt, N_ascii_bounded).
  rewrite ascii_N_embedding.
  destruct (Ascii.eqb_spec (lower_char a) (lower_char c)) as [-> | Hne].
  - apply N.eqb_refl.
  - apply N.eqb_neq. intros H. apply Hne.
    rewrite <- (ascii_N_embedding (lower_char a)), H.
    apply ascii_N_embedding.
Qed.

Lemma Spells_codes (pattern : string) :
  forall s, Spells pattern (codes s) <-> lower s = lower pattern.
Proof.
  unfold Spells, codes.
  induction pattern as [|c p IH]; intros [|a s]; simpl.
  - split; [reflexivity | constructor].
  - split; [intros H; inversion H | discriminate].
  - split; [intros H; inversion H | discriminate].
  - split.
    + intros H. inversion H as [|c' x' l l' Hc Hr]; subst.
      rewrite lit_match_latin1 in Hc. apply Ascii.eqb_eq in Hc.
      apply IH in Hr. now rewrite Hc, Hr.
    + intros H. injection H as Hc Hs. constructor.
      * rewrite lit_match_latin1, Hc. apply Ascii.eqb_refl.
      * now apply IH.
Qed.

Lemma contains_literal_latin1 (pattern s : string) :
  Contains (literal pattern) (codes s) <->
  Substring (lower pattern) (lower s).
Proof.
  rewrite contains_literal. unfold Substring. split.
  - intros (pre & mid & post & E & H).
    apply codes_split in E as (s1 & s23 & -> & <- & E).
    apply codes_split in E as (s2 & s3 & -> & <- & <-).
    apply Spells_codes in H.
    exists (lower s1), (lower s3). now rewrite !lower_append, H.
  - intros (a & b & H).
    apply lower_split in H as (t1 & t23 & -> & _ & H).
    apply lower_split in H as (t2 & t3 & -> & H & _).
    exists (codes t1), (codes t2), (codes t3).
    split; [now rewrite !codes_app | now apply Spells_codes].
Qed.

Lemma codes_nil (s : string) : codes s = [] <-> s = "".
Proof. destruct s; split; intros H; try reflexivity; discriminate. Qed.

(** X7: for a search term of Latin-1 characters none of which is one of
    [. \ [ { ( ) * + ? ^ $ |], a page matches exactly when its text is not
    empty and some part of it spells the term, in any case; when the text
    lies within Latin-1 too, that is when the term, in lower case, occurs in
    the text, in lower case.  No pattern error can arise: the test raises
    only what [extract_text] raises. *)
Theorem plain_pattern_is_substring_search (E : Env) (search_term : string)
    (page : Page) :
  is_plain search_term = true ->
  (page_matches E search_term page = Ok true <->
   exists pre mid post,
     extract_text page = Ok (Some (pre ++ mid ++ post)) /\
     pre ++ mid ++ post <> [] /\ Spells search_term mid) /\
  (forall s,
     extract_text page = Ok (Some (codes s)) ->
     (page_matches E search_term page = Ok true <->
      s <> "" /\ Substring (lower search_term) (lower s))) /\
  (forall e, page_matches E search_term page = Raise e ->
             extract_text page = Raise e).
Proof.
  intros Hp.
  assert (Hc : re_compile E search_term IGNORECASE = Ok (literal search_term))
    by (unfold re_compile; now rewrite Hp).
  split; [|split].
  - rewrite page_matches_spec, Hc. split.
    + intros (text & p & Ht & Hne & Hr & Hin). injection Hr as <-.
      apply contains_literal in Hin as (pre & mid & post & -> & Hs).
      now exists pre, mid, post.
    + intros (pre & mid & post & Ht & Hne & Hs).
      exists (pre ++ mid ++ post), (literal search_term).
      split; [exact Ht|]. split; [exact Hne|]. split; [reflexivity|].
      apply contains_literal. now exists pre, mid, post.
  - intros s Ht. rewrite page_matches_spec, Hc, Ht. split.
    + intros (text & p & Hs & Hne & Hr & Hin).
      injection Hs as <-. injection Hr as <-.
      split; [intros ->; now apply Hne | now apply contains_literal_latin1].
    + intros [Hne Hs]. exists (codes s), (literal search_term).
      split; [reflexivity|]. split; [now rewrite codes_nil|].
      split; [reflexivity | now apply contains_literal_latin1].
  - intros e. unfold page_matches, re_search. rewrite Hc.
    destruct (extract_text page) as [[[|x text]|] | e0].
    + intros H; discriminate H.
    + intros H; discriminate H.
    + intros H; discriminate H.
    + intros H. injection H as ->. reflexivity.
Qed.

Lemma plain_pattern_is_substring_search_witness :
  is_plain "ouverture de connexion TCP" = true /\
  (page_matches Demo.env "ouverture de connexion TCP"
     (Demo.text_page "3.1 Ouverture De Connexion tcp (SYN)") = Ok true <->
   "3.1 Ouverture De Connexion tcp (SYN)" <> "" /\
   Substring (lower "ouverture de connexion TCP")
             (lower "3.1 Ouverture De Connexion tcp (SYN)")).
Proof.
  split; [reflexivity|].
  exact (proj1 (proj2 (@plain_pattern_is_substring_search Demo.env
                         "ouverture de connexion TCP"
                         (Demo.text_page "3.1 Ouverture De Connexion tcp (SYN)")
                         eq_refl))
           "3.1 Ouverture De Connexion tcp (SYN)" eq_refl).
Defined.

(** ** The log of [search_pdf] *)

Section Log.

Variable E : Env.
Variables pdf_path search_term : string.

Lemma for_pages_exc (it : PageIter) :
  forall i acc,
    snd (for_pages E pdf_path search_term i it acc) = iter_exception it.
Proof.
  induction it as [| e | page rest IH]; intros i acc; simpl; auto.
  destruct (page_matches E search_term page) as [[|] | e]; auto.
  specialize (IH (i + 1) acc).
  destruct (for_pages E pdf_path search_term (i + 1) rest acc)
    as [[out m] exc]. exact IH.
Qed.

Lemma for_pages_silent (it : PageIter) :
  forall i acc,
    fst (fst (for_pages E pdf_path search_term i it acc)) = [] <->
    some_page_raises E search_term it = false.
Proof.
  induction it as [| e | page rest IH]; intros i acc; simpl;
    try (split; reflexivity).
  destruct (page_matches E search_term page) as [[|] | e]; try apply IH.
  destruct (for_pages E pdf_path search_term (i + 1) rest acc)
    as [[out m] exc]. simpl. split; discriminate.
Qed.

Lemma for_pages_prints (it : PageIter) :
  forall i acc,
    prints_only (fst (fst (for_pages E pdf_path search_term i it acc))).
Proof.
  induction it as [| e | page rest IH]; intros i acc; simpl;
    try constructor.
  destruct (page_matches E search_term page) as [[|] | e]; try apply IH.
  specialize (IH (i + 1) acc).
  destruct (for_pages E pdf_path search_term (i + 1) rest acc)
    as [[out m] exc]. simpl in *.
  constructor; [eexists; reflexivity | exact IH].
Qed.

Lemma search_pdf_prints : prints_only (fst (search_pdf E pdf_path search_term)).
Proof.
  unfold search_pdf.
  destruct (pdf_open E pdf_path) as [pdf | e].
  - pose proof (for_pages_prints (pages pdf) 0 []) as H.
    destruct (for_pages E pdf_path search_term 0 (pages pdf) [])
      as [[out m] exc]. simpl in H.
    destruct (with_exit (close pdf) exc); simpl; [|exact H].
    apply Forall_app. split; [exact H|].
    constructor; [eexists; reflexivity | constructor].
  - constructor; [eexists; reflexivity | constructor].
Qed.

End Log.

Lemma prints_only_popens (out : list event) : prints_only out -> popens out = [].
Proof.
  induction 1 as [|ev out [line ->] _ IH]; simpl; auto.
Qed.

Lemma prints_only_prompts (out : list event) :
  prints_only out -> prompts out = [].
Proof.
  induction 1 as [|ev out [line ->] _ IH]; simpl; auto.
Qed.

(** X8: [search_pdf] prints nothing exactly when the file opens, no page
    makes extraction or the pattern raise, the iteration over the pages ends
    without an exception and so does closing the file. *)
Theorem search_pdf_silent_iff_healthy (E : Env) (pdf_path search_term : string) :
  fst (search_pdf E pdf_path search_term) = [] <->
  exists pdf,
    pdf_open E pdf_path = Ok pdf /\
    some_page_raises E search_term (pages pdf) = false /\
    iter_exception (pages pdf) = None /\
    close pdf = None.
Proof.
  unfold search_pdf. destruct (pdf_open E pdf_path) as [pdf | e].
  - pose proof (for_pages_exc E pdf_path search_term (pages pdf) 0 []) as Hx.
    pose proof (for_pages_silent E pdf_path search_term (pages pdf) 0 [])
      as Hs.
    destruct (for_pages E pdf_path search_term 0 (pages pdf) [])
      as [[out m] exc]. simpl in Hx, Hs. subst exc. split.
    + intros H. exists pdf. split; [reflexivity|].
      destruct (close pdf) as [c|]; simpl in H.
      * destruct out; discriminate.
      * destruct (iter_exception (pages pdf)); simpl in H.
        -- destruct out; discriminate.
        -- split; [now apply Hs | auto].
    + intros (pdf' & Ho & Hr & Hi & Hc). injection Ho as <-.
      rewrite Hc, Hi. simpl. now apply Hs.
  - split; [discriminate | intros (pdf & Ho & _); discriminate].
Qed.

(** ** More on the dictionary *)

Section DictSet.

Lemma Forall_dict_set (P : string * list Z -> Prop) (d : dict) (k : string)
    (v : list Z) :
  Forall P d -> P (k, v) -> Forall P (dict_set d k v).
Proof.
  intros Hd Hk. induction Hd as [|[k' v'] d Hx Hd IH]; simpl.
  - constructor; [exact Hk | constructor].
  - destruct (k' =? k)%string; constructor; auto.
Qed.

Lemma keys_dict_set_In (d : dict) (k : string) (v : list Z) (k' : string) :
  In k' (keys (dict_set d k v)) -> k' = k \/ In k' (keys d).
Proof.
  induction d as [|[k0 v0] d IH]; simpl.
  - intros [<- | []]. now left.
  - destruct (k0 =? k)%string eqn:E0; simpl.
    + intros [<- | H]; auto.
    + intros [<- | H]; auto. destruct (IH H); auto.
Qed.

Lemma NoDup_dict_set (d : dict) (k : string) (v : list Z) :
  NoDup (keys d) -> NoDup (keys (dict_set d k v)).
Proof.
  induction d as [|[k0 v0] d IH]; simpl; intros Hn.
  - constructor; [tauto | constructor].
  - inversion Hn as [|x l Hx Hl]; subst.
    destruct (k0 =? k)%string eqn:E0; simpl.
    + apply String.eqb_eq in E0. subst k0. now constructor.
    + constructor; [|now apply IH].
      intros H. apply keys_dict_set_In in H as [-> | H]; [|tauto].
      now rewrite String.eqb_refl in E0.
Qed.

Lemma len_dict_set (d : dict) (k : string) (v : list Z) :
  len (dict_set d k v) <= len d + 1.
Proof.
  unfold len. induction d as [|[k0 v0] d IH]; simpl; [lia|].
  destruct (k0 =? k)%string; simpl; lia.
Qed.

Lemma dict_set_fresh (d : dict) (k : string) (v : list Z) :
  ~ In k (keys d) -> dict_set d k v = d ++ [(k, v)].
Proof.
  induction d as [|[k0 v0] d IH]; simpl; intros Hk; [reflexivity|].
  destruct (k0 =? k)%string eqn:E0.
  - apply String.eqb_eq in E0. tauto.
  - now rewrite IH by tauto.
Qed.

Lemma dict_get_all_None (d : dict) :
  (forall p, dict_get d p = None) -> d = [].
Proof.
  destruct d as [|[k v] d]; [reflexivity|]. intros H. specialize (H k).
  simpl in H. now rewrite String.eqb_refl in H.
Qed.

End DictSet.

(** ** What the scan keeps true *)

Section ScanInduction.

Variable E : Env.
Variables folder_path search_term : string.

(** A property of the files seen and the state, true at the start and kept
    by the visit of a PDF file, holds at the end of the scan. *)
Lemma scan_induction (I : list string -> scan_state -> Prop) :
  I [] (mkScan [] 0 0 [Print (searching_line search_term folder_path)]) ->
  (forall root seen st filename,
     is_pdf_name filename = true ->
     I seen st ->
     I (seen ++ [path_join E root filename])
       (visit_file E folder_path search_term root st filename)) ->
  I (scanned_pdfs E folder_path) (scan E folder_path search_term).
Proof.
  intros Hinit Hstep.
  assert (Hfiles : forall root files seen st,
             I seen st ->
             I (seen ++ map (path_join E root) (filter is_pdf_name files))
               (fold_left (visit_file E folder_path search_term root) files st)).
  { intros root files. induction files as [|f files IH]; intros seen st Hi;
      simpl.
    - now rewrite app_nil_r.
    - destruct (is_pdf_name f) eqn:Hn.
      + simpl.
        replace (seen ++ path_join E root f ::
                   map (path_join E root) (filter is_pdf_name files))
          with ((seen ++ [path_join E root f]) ++
                  map (path_join E root) (filter is_pdf_name files))
          by now rewrite <- app_assoc.
        apply IH. now apply Hstep.
      + rewrite (@visit_file_other E folder_path search_term root st f Hn).
        now apply IH. }
  assert (Hdirs : forall entries seen st,
             I seen st ->
             I (seen ++
                flat_map (fun entry : string * list string * list string =>
                            let '(root, _, files) := entry in
                            map (path_join E root) (filter is_pdf_name files))
                         entries)
               (fold_left (visit_dir E folder_path search_term) entries st)).
  { induction entries as [|[[root dirs] files] entries IH]; intros seen st Hi;
      simpl.
    - now rewrite app_nil_r.
    - rewrite app_assoc. apply IH. now apply Hfiles. }
  exact (Hdirs (walk E folder_path) [] _ Hinit).
Qed.

Lemma entry_ok_more (seen more : list string) (item : string * list Z) :
  entry_ok E search_term seen item -> entry_ok E search_term (seen ++ more) item.
Proof.
  intros (H1 & H2 & H3). split; [|split]; auto. apply in_or_app. now left.
Qed.

Lemma scan_state_ok_scan :
  scan_state_ok E search_term (scanned_pdfs E folder_path)
                (scan E folder_path search_term).
Proof.
  apply scan_induction.
  - unfold scan_state_ok, len. simpl. split; [constructor|].
    split; [constructor|]. split; [lia|]. split; [lia|].
    constructor; [eexists; reflexivity | constructor].
  - intros root seen st filename Hn (Hr & Hk & Hl & Hf & Hp).
    unfold visit_file. unfold is_pdf_name in Hn. rewrite Hn.
    set (pdf_path := path_join E root filename).
    pose proof (search_pdf_prints E pdf_path search_term) as Hlog.
    destruct (search_pdf E pdf_path search_term) as [out matches] eqn:Es.
    simpl in Hlog.
    assert (Hmore : Forall (entry_ok E search_term (seen ++ [pdf_path]))
                           (results st)).
    { eapply Forall_impl; [|exact Hr]. intros item. apply entry_ok_more. }
    destruct matches as [|n l]; unfold scan_state_ok;
      cbn [results total_files files_with_matches printed].
    + split; [exact Hmore|]. split; [exact Hk|]. split; [exact Hl|].
      split; [lia|]. apply Forall_app. now split.
    + split; [|split; [|split; [|split]]].
      * apply Forall_dict_set; [exact Hmore|].
        split; [|split]; cbn [fst snd].
        -- apply in_or_app. right. now left.
        -- now rewrite Es.
        -- discriminate.
      * now apply NoDup_dict_set.
      * pose proof (len_dict_set (results st) pdf_path (n :: l)). lia.
      * lia.
      * apply Forall_app. split; [exact Hp|]. apply Forall_app.
        split; [exact Hlog|]. constructor; [eexists; reflexivity | constructor].
Qed.

Lemma filter_keys_in_seen (seen : list string) (k : string) :
  In k (keys (map (entry_of E search_term)
                  (filter (has_matches E search_term) seen))) ->
  In k seen.
Proof.
  unfold keys. rewrite map_map. cbn [entry_of fst]. rewrite map_id.
  intros H. now apply filter_In in H.
Qed.

Lemma scan_in_order_scan :
  scan_in_order E search_term (scanned_pdfs E folder_path)
                (scan E folder_path search_term).
Proof.
  apply scan_induction.
  - intros _. split; reflexivity.
  - intros root seen st filename Hn IH Hnd.
    apply NoDup_remove in Hnd as [Hnd Hnew]. rewrite !app_nil_r in *.
    destruct (IH Hnd) as [Hres Hcnt].
    unfold visit_file. unfold is_pdf_name in Hn. rewrite Hn.
    set (pdf_path := path_join E root filename) in *.
    rewrite filter_app. cbn [filter].
    assert (Hh : has_matches E search_term pdf_path =
                 match snd (search_pdf E pdf_path search_term) with
                 | [] => false
                 | _ :: _ => true
                 end) by reflexivity.
    destruct (search_pdf E pdf_path search_term) as [out matches] eqn:Es.
    cbn [snd] in Hh. rewrite Hh.
    destruct matches as [|n l];
      cbn [results total_files files_with_matches printed].
    + rewrite app_nil_r. now split.
    + rewrite dict_set_fresh.
      * rewrite Hres, map_app. cbn [map]. unfold entry_of at 3.
        rewrite Es. cbn [snd]. split; [reflexivity|].
        rewrite Hcnt, Hres. unfold len. rewrite !length_app. simpl. lia.
      * rewrite Hres. intros Hin. apply filter_keys_in_seen in Hin. tauto.
Qed.

Lemma results_nil_iff :
  results (scan E folder_path search_term) = [] <->
  existsb (has_matches E search_term) (scanned_pdfs E folder_path) = false.
Proof.
  destruct (scan_inv_scan E folder_path search_term) as (Hd & _ & _).
  split.
  - intros Hnil.
    destruct (existsb (has_matches E search_term) (scanned_pdfs E folder_path))
      eqn:Ex; [|reflexivity].
    apply existsb_exists in Ex as (p & Hp & Hm).
    specialize (Hd p). rewrite Hnil in Hd. simpl in Hd.
    apply mem_path_In in Hp. rewrite Hp, Hm in Hd. discriminate.
  - intros Hex. apply dict_get_all_None. intros p. rewrite Hd.
    destruct (mem_path p (scanned_pdfs E folder_path)) eqn:Hp; [|reflexivity].
    destruct (has_matches E search_term p) eqn:Hm; [|reflexivity].
    apply mem_path_In in Hp.
    assert (existsb (has_matches E search_term) (scanned_pdfs E folder_path)
            = true) as Ht by (apply existsb_exists; now exists p).
    congruence.
Qed.

End ScanInduction.

(** X9: the results a scan hands to the opener have distinct keys; each key
    is a scanned file, bound to the list [search_pdf] returns for it, which
    is not empty, strictly ascending and made of page numbers of that file;
    and the counters are ordered: entries of the results, then files with
    matches, then files scanned. *)
Theorem scan_results_well_formed (E : Env) (folder_path search_term : string) :
  NoDup (keys (results (scan E folder_path search_term))) /\
  Forall (fun item =>
            In (fst item) (scanned_pdfs E folder_path) /\
            snd item = snd (search_pdf E (fst item) search_term) /\
            snd item <> [] /\
            StronglySorted Z.lt (snd item) /\
            Forall (fun n => 1 <= n <= page_count E (fst item)) (snd item))
         (results (scan E folder_path search_term)) /\
  len (results (scan E folder_path search_term)) <=
    files_with_matches (scan E folder_path search_term) /\
  files_with_matches (scan E folder_path search_term) <=
    total_files (scan E folder_path search_term).
Proof.
  destruct (scan_state_ok_scan E folder_path search_term)
    as (Hr & Hk & Hl & Hf & _).
  split; [exact Hk|]. split; [|split; [exact Hl | exact Hf]].
  eapply Forall_impl; [|exact Hr]. intros [p pages] (H1 & H2 & H3).
  cbn [fst snd] in *. split; [exact H1|]. split; [exact H2|].
  split; [exact H3|]. rewrite H2, search_pdf_matches. split.
  - apply matched_from_sorted.
  - apply Forall_forall. intros n Hn. apply matched_from_bounds in Hn.
    unfold page_count. lia.
Qed.

(** X10: when the walk yields no path twice, the results list the files with
    matches in the order in which the walk yields them, each with the list
    [search_pdf] returns for it, and the count of files with matches is the
    number of entries. *)
Theorem scan_results_in_walk_order (E : Env) (folder_path search_term : string) :
  NoDup (scanned_pdfs E folder_path) ->
  results (scan E folder_path search_term) =
    map (entry_of E search_term)
        (filter (has_matches E search_term) (scanned_pdfs E folder_path)) /\
  files_with_matches (scan E folder_path search_term) =
    len (results (scan E folder_path search_term)).
Proof. apply scan_in_order_scan. Qed.

Lemma scan_results_in_walk_order_witness :
  NoDup (scanned_pdfs Demo.env Demo.root) /\
  results (scan Demo.env Demo.root "invoice") =
    map (entry_of Demo.env "invoice")
        (filter (has_matches Demo.env "invoice")
                (scanned_pdfs Demo.env Demo.root)) /\
  files_with_matches (scan Demo.env Demo.root "invoice") =
    len (results (scan Demo.env Demo.root "invoice")).
Proof.
  assert (H : NoDup (scanned_pdfs Demo.env Demo.root)).
  { change (NoDup ["C:\docs\a.pdf"; "C:\docs\b.pdf"]).
    constructor; [|constructor; [|constructor]]; simpl.
    - intros [H | []]. discriminate H.
    - tauto. }
  split; [exact H|].
  exact (@scan_results_in_walk_order Demo.env Demo.root "invoice" H).
Defined.

(** ** The whole program *)

Lemma from_results_from_scan (E : Env) (folder_path search_term : string)
    (command : list string) :
  from_results (results (scan E folder_path search_term)) command ->
  from_scan E folder_path search_term command.
Proof.
  intros (exe & p & pages & page & He & Hp & Hpage & ->).
  destruct (scan_state_ok_scan E folder_path search_term) as (Hr & _).
  rewrite Forall_forall in Hr. destruct (Hr _ Hp) as (H1 & H2 & _).
  cbn [fst snd] in *. exists exe, p, page.
  split; [exact He|]. split; [exact H1|]. split; [|reflexivity].
  now rewrite <- H2.
Qed.

(** X11: every command [search_and_open_pdfs] hands to [Popen] is one of the
    two viewers with [/A], [page=N] and the path of a PDF file met by the
    walk, where [N] is a page of that file that [search_pdf] matched. *)
Theorem program_opens_only_matched_pages (E : Env)
    (folder_path search_term : string) (inputs : list string) :
  Forall (from_scan E (abspath E folder_path) search_term)
         (popens (fst (fst (search_and_open_pdfs E folder_path search_term
                              inputs)))).
Proof.
  unfold search_and_open_pdfs.
  destruct (isdir E (abspath E folder_path)); cbn [negb]; [|constructor].
  rewrite prepend_fst, popens_app, popens_app.
  destruct (scan_state_ok_scan E (abspath E folder_path) search_term)
    as (_ & _ & _ & _ & Hp).
  rewrite (prints_only_popens Hp). cbn [app popens].
  eapply Forall_impl; [apply from_results_from_scan|].
  unfold open_pdfs.
  destruct (results (scan E (abspath E folder_path) search_term))
    as [|item items] eqn:Er; [constructor|].
  rewrite <- Er. rewrite prepend_fst. cbn [app popens].
  rewrite popens_app, popens_listing. apply from_results_loop.
Qed.

(** X12: the menu is shown exactly when the folder exists and some scanned
    PDF has a match: then the first prompt is the one for a file; otherwise
    the program returns without reading a line of input, without a prompt
    and without starting anything. *)
Theorem menu_shown_iff_some_match (E : Env) (folder_path search_term : string)
    (inputs : list string) :
  if isdir E (abspath E folder_path) &&
     existsb (has_matches E search_term)
             (scanned_pdfs E (abspath E folder_path))
  then
    exists tail,
      prompts (fst (fst (search_and_open_pdfs E folder_path search_term
                           inputs))) = file_prompt :: tail
  else
    snd (fst (search_and_open_pdfs E folder_path search_term inputs)) =
      Returned /\
    snd (search_and_open_pdfs E folder_path search_term inputs) = inputs /\
    prompts (fst (fst (search_and_open_pdfs E folder_path search_term
                         inputs))) = [] /\
    popens (fst (fst (search_and_open_pdfs E folder_path search_term
                        inputs))) = [].
Proof.
  unfold search_and_open_pdfs.
  destruct (isdir E (abspath E folder_path)); cbn [negb andb];
    [|repeat split].
  destruct (scan_state_ok_scan E (abspath E folder_path) search_term)
    as (_ & _ & _ & _ & Hp).
  rewrite prepend_fst, prepend_outcome, prepend_rest.
  rewrite !prompts_app, !popens_app.
  rewrite (prints_only_popens Hp), (prints_only_prompts Hp).
  cbn [app prompts popens].
  destruct (existsb (has_matches E search_term)
                    (scanned_pdfs E (abspath E folder_path))) eqn:Ex.
  - unfold open_pdfs.
    destruct (results (scan E (abspath E folder_path) search_term))
      as [|item items] eqn:Er.
    + apply results_nil_iff in Er. congruence.
    + rewrite <- Er. rewrite prepend_fst. cbn [app prompts].
      rewrite prompts_app, prompts_listing. cbn [app].
      destruct (selection_loop_first E
                  (results (scan E (abspath E folder_path) search_term))
                  (keys (results (scan E (abspath E folder_path) search_term)))
                  inputs) as [tail ->].
      cbn [prompts]. eexists. reflexivity.
  - apply results_nil_iff in Ex. rewrite Ex. repeat split.
Qed.

(** X13: when the pattern does not compile, [search_pdf] returns the empty
    list for every file, so the scan finds nothing; and every page with a
    text gets its line in the log, with the error of the pattern. *)
Theorem invalid_pattern_matches_nothing (E : Env) (search_term e : string) :
  re_compile E search_term IGNORECASE = Raise e ->
  (forall pdf_path, snd (search_pdf E pdf_path search_term) = []) /\
  (forall folder_path, results (scan E folder_path search_term) = []) /\
  (forall pdf_path pdf k page text,
     pdf_open E pdf_path = Ok pdf ->
     nth_page (pages pdf) k = Some page ->
     extract_text page = Ok (Some text) ->
     text <> [] ->
     In (Print (page_error_line pdf_path (Z.of_nat k) e))
        (fst (search_pdf E pdf_path search_term))).
Proof.
  intros Hc.
  assert (Hnone : forall pdf_path, snd (search_pdf E pdf_path search_term) = []).
  { intros pdf_path. rewrite search_pdf_matches.
    destruct (matched_from E search_term 0 (pages_of E pdf_path))
      as [|n l] eqn:Em; [reflexivity|].
    assert (In n (matched_from E search_term 0 (pages_of E pdf_path))) as H
      by (rewrite Em; now left).
    apply matched_from_In in H as (k & page & _ & _ & Hm).
    apply page_matches_spec in Hm as (text & r & _ & _ & Hr & _).
    congruence. }
  split; [exact Hnone|]. split.
  - intros folder_path. apply results_nil_iff.
    destruct (existsb (has_matches E search_term) (scanned_pdfs E folder_path))
      eqn:Ex; [|reflexivity].
    apply existsb_exists in Ex as (p & _ & Hm).
    unfold has_matches in Hm. now rewrite Hnone in Hm.
  - intros pdf_path pdf k page text Ho Hk Ht Hne.
    assert (Hr : page_matches E search_term page = Raise e).
    { unfold page_matches, re_search. rewrite Ht, Hc.
      destruct text; [now destruct Hne | reflexivity]. }
    destruct (@search_pdf_log E pdf_path search_term pdf Ho) as [tail ->].
    apply in_or_app. left.
    apply (@for_pages_logs_error E pdf_path search_term (pages pdf) 0 [] k
             page e Hk Hr).
Qed.

Lemma invalid_pattern_matches_nothing_witness :
  re_compile Demo.env "invoice(" IGNORECASE =
    Raise "missing ), unterminated subpattern at position 7" /\
  snd (search_pdf Demo.env "C:\docs\a.pdf" "invoice(") = [] /\
  results (scan Demo.env Demo.root "invoice(") = [].
Proof.
  split; [reflexivity|].
  pose proof (@invalid_pattern_matches_nothing Demo.env "invoice("
                "missing ), unterminated subpattern at position 7" eq_refl)
    as H.
  exact (conj (proj1 H "C:\docs\a.pdf") (proj1 (proj2 H) Demo.root)).
Defined.

(** ** The numbers of the listing, typed back *)

Section IntOfStr.

Lemma digit_run_uint (d : Decimal.uint) :
  forall acc cnt,
    digit_run (NilEmpty.string_of_uint d) false acc cnt =
    Some (uint_horner d acc, (cnt + Decimal.nb_digits d)%nat, "").
Proof.
  induction d; intros acc cnt;
    cbn [NilEmpty.string_of_uint uint_horner Decimal.nb_digits];
    [ cbn [digit_run]; now rewrite Nat.add_0_r
    | rewrite <- Nat.add_succ_comm; rewrite <- IHd; reflexivity .. ].
Qed.

Lemma digit_run_uint_start (d : Decimal.uint) :
  d <> Decimal.Nil ->
  digit_run (NilEmpty.string_of_uint d) true 0 0 =
  Some (uint_horner d 0, Decimal.nb_digits d, "").
Proof.
  intros Hd.
  transitivity (digit_run (NilEmpty.string_of_uint d) false 0 0).
  - destruct d; [now destruct Hd | reflexivity ..].
  - now rewrite digit_run_uint.
Qed.

Lemma uint_horner_acc (d : Decimal.uint) :
  forall acc, uint_horner d (Z.pos acc) = Z.pos (Pos.of_uint_acc d acc).
Proof.
  induction d; intros acc; cbn [uint_horner Pos.of_uint_acc];
    [reflexivity | rewrite <- IHd; f_equal; lia ..].
Qed.

Lemma uint_horner_of_uint (d : Decimal.uint) :
  uint_horner d 0 = Z.of_N (Pos.of_uint d).
Proof.
  induction d; cbn [uint_horner Pos.of_uint];
    [reflexivity | exact IHd | apply (uint_horner_acc d) ..].
Qed.

Lemma string_of_uint_length (d : Decimal.uint) :
  String.length (NilEmpty.string_of_uint d) = Decimal.nb_digits d.
Proof. induction d; simpl; auto. Qed.

(** The decimal writing of a positive number starts with a digit. *)
Lemma string_of_uint_head (d : Decimal.uint) :
  d <> Decimal.Nil ->
  exists c s,
    NilEmpty.string_of_uint d = String c s /\ is_digit c = true /\
    lower_char c = c /\ int_space c = false /\
    c <> "q"%char /\ c <> "a"%char /\ c <> "+"%char /\ c <> "-"%char.
Proof.
  intros Hd. destruct d; [now destruct Hd | ..]; eexists; eexists;
    (split; [reflexivity|]); repeat split; discriminate.
Qed.

Lemma int_of_str_pos (max_digits : nat) (p : positive) :
  max_digits = 0%nat \/
  (String.length (str_of_Z (Z.pos p)) <= max_digits)%nat ->
  int_of_str max_digits (str_of_Z (Z.pos p)) = Some (Z.pos p).
Proof.
  unfold str_of_Z. cbn [Z.to_int NilZero.string_of_int].
  pose proof (DecimalPos.Unsigned.to_uint_nonnil p) as Hnil.
  assert (Hs : NilZero.string_of_uint (Pos.to_uint p) =
               NilEmpty.string_of_uint (Pos.to_uint p))
    by (destruct (Pos.to_uint p); [now destruct Hnil | reflexivity ..]).
  rewrite Hs. intros Hcap.
  destruct (string_of_uint_head Hnil)
    as (c & s & Hc & Hdig & _ & Hsp & _ & _ & Hplus & Hminus).
  unfold int_of_str.
  assert (Hstrip : lstrip (NilEmpty.string_of_uint (Pos.to_uint p)) =
                   NilEmpty.string_of_uint (Pos.to_uint p))
    by (rewrite Hc; cbn [lstrip]; now rewrite Hsp).
  rewrite Hstrip.
  assert (Hsign :
            match NilEmpty.string_of_uint (Pos.to_uint p) with
            | String "+" r => (1, r)
            | String "-" r => (-1, r)
            | _ => (1, NilEmpty.string_of_uint (Pos.to_uint p))
            end = (1, NilEmpty.string_of_uint (Pos.to_uint p))).
  { rewrite Hc.
    destruct c as [[] [] [] [] [] [] [] []]; try reflexivity;
      [now destruct Hminus | now destruct Hplus]. }
  rewrite Hsign, (digit_run_uint_start Hnil). cbn [all_space negb].
  rewrite uint_horner_of_uint, DecimalPos.Unsigned.of_to.
  rewrite string_of_uint_length in Hcap.
  assert (Hlim : negb (Nat.eqb max_digits 0) &&
                 Nat.ltb max_digits (Decimal.nb_digits (Pos.to_uint p)) = false).
  { destruct Hcap as [-> | Hle]; [reflexivity|].
    apply andb_false_iff. right. apply Nat.ltb_ge. exact Hle. }
  rewrite Hlim. f_equal.
Qed.

Lemma lower_str_of_pos (p : positive) :
  (lower (str_of_Z (Z.pos p)) =? "q")%string = false /\
  (lower (str_of_Z (Z.pos p)) =? "all")%string = false.
Proof.
  unfold str_of_Z. cbn [Z.to_int NilZero.string_of_int].
  pose proof (DecimalPos.Unsigned.to_uint_nonnil p) as Hnil.
  assert (Hs : NilZero.string_of_uint (Pos.to_uint p) =
               NilEmpty.string_of_uint (Pos.to_uint p))
    by (destruct (Pos.to_uint p); [now destruct Hnil | reflexivity ..]).
  rewrite Hs.
  destruct (string_of_uint_head Hnil)
    as (c & s & -> & _ & Hl & _ & Hq & Ha & _).
  cbn [lower]. rewrite Hl. split; apply String.eqb_neq; intros H;
    injection H as H _; auto.
Qed.

End IntOfStr.

Lemma listing_nth (E : Env) (results : dict) (pdf_list : list string) :
  forall i0 k,
    (k < List.length pdf_list)%nat ->
    nth (2 * k) (listing E results i0 pdf_list) (Print "") =
    Print (str_of_Z (i0 + Z.of_nat k + 1) ++ ". "
             ++ basename E (nth k pdf_list "") ++ " ("
             ++ str_of_Z (len (getitem results (nth k pdf_list "")))
             ++ " matches on pages "
             ++ repr_pages (getitem results (nth k pdf_list "")) ++ ")")%string.
Proof.
  induction pdf_list as [|p l IH]; intros i0 k Hk; simpl in Hk; [lia|].
  destruct k as [|k].
  - cbn [Nat.mul listing nth]. now rewrite Z.add_0_r.
  - replace (2 * S k)%nat with (S (S (2 * k))) by lia.
    cbn [listing nth]. rewrite IH by lia.
    now replace (i0 + 1 + Z.of_nat k + 1) with (i0 + Z.of_nat (S k) + 1) by lia.
Qed.

(** X14: the listing shows the file at position [i] under the number
    [i + 1], and that number, typed at the file prompt, selects that file:
    it is opened at its page when it has a single matched page, and the page
    prompt for its pages follows otherwise. *)
Theorem listed_number_selects_file (E : Env) (results : dict) (i : nat)
    (rest : list string) :
  (i < List.length results)%nat ->
  int_max_str_digits E = 0%nat \/
  (String.length (str_of_Z (Z.of_nat i + 1)) <= int_max_str_digits E)%nat ->
  nth (2 * i) (listing E results 0 (keys results)) (Print "") =
    Print (str_of_Z (Z.of_nat i + 1) ++ ". "
             ++ basename E (nth i (keys results) "") ++ " ("
             ++ str_of_Z (len (getitem results (nth i (keys results) "")))
             ++ " matches on pages "
             ++ repr_pages (getitem results (nth i (keys results) ""))
             ++ ")")%string /\
  selection_loop E results (keys results)
    (str_of_Z (Z.of_nat i + 1) :: rest) =
    if len (getitem results (nth i (keys results) "")) =? 1 then
      prepend
        (Input file_prompt
         :: fst (open_pdf_with_foxit E (nth i (keys results) "")
                   (hd 0 (getitem results (nth i (keys results) "")))))
        (selection_loop E results (keys results) rest)
    else
      match rest with
      | [] =>
          ([Input file_prompt;
            Input (page_prompt (getitem results (nth i (keys results) "")))],
           EOFError, [])
      | page_choice :: rest' =>
          prepend
            (Input file_prompt
             :: Input (page_prompt (getitem results (nth i (keys results) "")))
             :: page_choice_step E (nth i (keys results) "")
                  (getitem results (nth i (keys results) "")) page_choice)
            (selection_loop E results (keys results) rest')
      end.
Proof.
  intros Hi Hcap.
  assert (Hlen : List.length (keys results) = List.length results)
    by (unfold keys; apply length_map).
  split.
  - rewrite listing_nth by lia. now rewrite Z.add_0_l.
  - destruct (Z.of_nat i + 1) as [|p|p] eqn:Ep; try lia.
    destruct (lower_str_of_pos p) as [Hq Ha].
    cbn [selection_loop]. rewrite Hq, Ha. unfold py_int.
    rewrite (@int_of_str_pos (int_max_str_digits E) p Hcap). cbv zeta.
    replace (Z.pos p - 1) with (Z.of_nat i) by lia.
    rewrite Nat2Z.id.
    assert (Hr : (0 <=? Z.of_nat i) && (Z.of_nat i <? len (keys results)) = true).
    { apply andb_true_iff. split; [apply Z.leb_le; lia|].
      apply Z.ltb_lt. unfold len. lia. }
    rewrite Hr. reflexivity.
Qed.

Lemma listed_number_selects_file_witness :
  (1 < List.length [("C:\docs\a.pdf", [1; 3]); ("C:\docs\c.pdf", [2])])%nat /\
  (int_max_str_digits Demo.env = 0%nat \/
   (String.length (str_of_Z (Z.of_nat 1 + 1)) <=
    int_max_str_digits Demo.env)%nat) /\
  nth (2 * 1)
      (listing Demo.env [("C:\docs\a.pdf", [1; 3]); ("C:\docs\c.pdf", [2])] 0
         (keys [("C:\docs\a.pdf", [1; 3]); ("C:\docs\c.pdf", [2])]))
      (Print "") =
    Print "2. c.pdf (1 matches on pages [2])" /\
  selection_loop Demo.env [("C:\docs\a.pdf", [1; 3]); ("C:\docs\c.pdf", [2])]
    (keys [("C:\docs\a.pdf", [1; 3]); ("C:\docs\c.pdf", [2])]) ["2"; "q"] =
  ([Input file_prompt;
    Popen [foxit_alternate; "/A"; "page=2"; "C:\docs\c.pdf"];
    Print "Opening c.pdf at page 2"; Input file_prompt], Returned, []).
Proof.
  assert (H1 : (1 < List.length [("C:\docs\a.pdf", [1; 3]);
                                 ("C:\docs\c.pdf", [2])])%nat)
    by (simpl; lia).
  assert (H2 : int_max_str_digits Demo.env = 0%nat \/
               (String.length (str_of_Z (Z.of_nat 1 + 1)) <=
                int_max_str_digits Demo.env)%nat)
    by (right; vm_compute; lia).
  split; [exact H1|]. split; [exact H2|].
  exact (@listed_number_selects_file Demo.env
           [("C:\docs\a.pdf", [1; 3]); ("C:\docs\c.pdf", [2])] 1 ["q"] H1 H2).
Defined.

(** ** What the user reads and gets after a scan *)

Lemma scan_printed_head (E : Env) (folder_path search_term : string) :
  exists tail,
    printed (scan E folder_path search_term) =
    Print (searching_line search_term folder_path) :: tail.
Proof.
  apply (scan_induction E folder_path search_term
           (fun _ st => exists tail,
                printed st =
                Print (searching_line search_term folder_path) :: tail)).
  - eexists. reflexivity.
  - intros root seen st filename Hn [tail Ht].
    unfold visit_file. unfold is_pdf_name in Hn. rewrite Hn.
    destruct (search_pdf E (path_join E root filename) search_term)
      as [out [|n l]]; cbn [printed]; rewrite Ht; eexists; reflexivity.
Qed.

(** X15: when the folder exists, the first line printed names the pattern
    and the folder, and the summary line gives the number of scanned PDF
    files with a match and the number of scanned PDF files. *)
Theorem summary_line_reports_counts (E : Env) (folder_path search_term : string)
    (inputs : list string) :
  isdir E (abspath E folder_path) = true ->
  (exists tail,
     fst (fst (search_and_open_pdfs E folder_path search_term inputs)) =
     Print (searching_line search_term (abspath E folder_path)) :: tail) /\
  In (Print (nl ++ "Search complete. Found matches in "
               ++ str_of_Z (len (filter (has_matches E search_term)
                                   (scanned_pdfs E (abspath E folder_path))))
               ++ " of "
               ++ str_of_Z (len (scanned_pdfs E (abspath E folder_path)))
               ++ " PDF files.")%string)
     (fst (fst (search_and_open_pdfs E folder_path search_term inputs))).
Proof.
  intros Hd. unfold search_and_open_pdfs. rewrite Hd. cbn [negb].
  rewrite prepend_fst.
  destruct (scan_inv_scan E (abspath E folder_path) search_term)
    as (_ & Ht & Hf).
  split.
  - destruct (scan_printed_head E (abspath E folder_path) search_term)
      as [tail ->]. eexists. reflexivity.
  - apply in_or_app. left. apply in_or_app. right. left.
    unfold complete_line. now rewrite Ht, Hf.
Qed.

Lemma summary_line_reports_counts_witness :
  isdir Demo.env (abspath Demo.env Demo.root) = true /\
  In (Print (nl ++ "Search complete. Found matches in 1 of 2 PDF files.")%string)
     (fst (fst (search_and_open_pdfs Demo.env Demo.root "invoice" ["q"]))).
Proof.
  split; [reflexivity|].
  exact (proj2 (@summary_line_reports_counts Demo.env Demo.root "invoice" ["q"]
                  eq_refl)).
Defined.

Lemma sorted_hd_le (pages : list Z) :
  StronglySorted Z.lt pages -> Forall (fun n => hd 0 pages <= n) pages.
Proof.
  intros H. destruct H as [|n l _ Hl]; [constructor|]. cbn [hd].
  constructor; [lia|]. eapply Forall_impl; [|exact Hl].
  intros m Hm. simpl in Hm. lia.
Qed.

(** X16: after a scan that found something, [all] opens every file of the
    results once, in the order of the results, at the first page of the
    list [search_pdf] returns for it, which is its lowest matched page. *)
Theorem all_after_scan_opens_lowest_pages (E : Env)
    (folder_path search_term choice : string) (rest : list string)
    (exe : string) :
  lower choice = "all" ->
  resolve_viewer E = Some exe ->
  existsb (has_matches E search_term) (scanned_pdfs E folder_path) = true ->
  popens (fst (fst (open_pdfs E (results (scan E folder_path search_term))
                      (choice :: rest)))) =
    map (fun p => foxit_command exe p (hd 0 (snd (search_pdf E p search_term))))
        (keys (results (scan E folder_path search_term))) /\
  Forall (fun p =>
            Forall (fun n => hd 0 (snd (search_pdf E p search_term)) <= n)
                   (snd (search_pdf E p search_term)))
         (keys (results (scan E folder_path search_term))).
Proof.
  intros Hc Hv Hex.
  destruct (scan_state_ok_scan E folder_path search_term) as (Hr & _).
  assert (Hne : results (scan E folder_path search_term) <> []).
  { intros Hnil. apply results_nil_iff in Hnil. congruence. }
  split.
  - unfold open_pdfs.
    destruct (results (scan E folder_path search_term)) as [|item items] eqn:Er;
      [now destruct Hne|].
    rewrite <- Er in *. cbn [selection_loop]. rewrite Hc.
    change ("all" =? "q")%string with false.
    change ("all" =? "all")%string with true.
    cbn [prepend fst snd app popens].
    rewrite popens_app, popens_listing. cbn [app popens].
    rewrite (@popens_open_all E exe (results (scan E folder_path search_term)) Hv).
    + unfold keys. rewrite map_map. apply map_ext_in.
      intros [p pages] Hin. rewrite Forall_forall in Hr.
      destruct (Hr _ Hin) as (_ & H2 & _). cbn [fst snd] in *. now rewrite H2.
    + intros p pages Hin. rewrite Forall_forall in Hr.
      destruct (Hr _ Hin) as (_ & _ & H3). exact H3.
  - unfold keys. apply Forall_map. eapply Forall_impl; [|exact Hr].
    intros [p pages] _. cbn [fst]. apply sorted_hd_le.
    rewrite search_pdf_matches. apply matched_from_sorted.
Qed.

Lemma all_after_scan_opens_lowest_pages_witness :
  lower "All" = "all" /\
  resolve_viewer Demo.env = Some foxit_alternate /\
  existsb (has_matches Demo.env "invoice") (scanned_pdfs Demo.env Demo.root) =
    true /\
  popens (fst (fst (open_pdfs Demo.env
                      (results (scan Demo.env Demo.root "invoice"))
                      ["All"]))) =
    map (fun p => foxit_command foxit_alternate p
                    (hd 0 (snd (search_pdf Demo.env p "invoice"))))
        (keys (results (scan Demo.env Demo.root "invoice"))).
Proof.
  split; [reflexivity|]. split; [reflexivity|]. split; [reflexivity|].
  exact (proj1 (@all_after_scan_opens_lowest_pages Demo.env Demo.root "invoice"
                  "All" [] foxit_alternate eq_refl eq_refl eq_refl)).
Defined.
